(** * pubmed-feed-pro: the ingestion, dedup and generation pipeline

    A shallow embedding of [core/pubmed_client.py], [core/llm_generator.py],
    [core/content_generator.py], [core/database.py] and of [run_search] in
    [core/cli.py], with the properties the specification states about them.

    Conventions of the model:
    - a Python [str] is its UTF-8 encoding in a [string]; slicing and [len]
      count code points ([utf8_take], [utf8_chars]);
    - a Python value of unknown shape (what [json.loads] returns) is a [pyval];
    - effectful code lives in the monad [Py]: a state monad over [World] whose
      results may be a raised exception; [try ... except Exception] is [catch];
    - everything outside the process (HTTP, the language model, storage faults,
      the clock) and the library functions whose text the code does not contain
      are fields of [Env]; the k-th call of a service is answered by the
      oracle at index k, and recorded in a log of the [World];
    - [print] is not modelled. *)

From stdpp Require Import gmap strings list fin_maps.
From Stdlib Require Import ZArith QArith Ascii DecimalString.

#[local] Set Warnings "-register-all".
#[local] Close Scope Q_scope.
#[local] Open Scope Z_scope.
#[local] Open Scope nat_scope.

(** ** Python strings *)

(** A byte [10xxxxxx] continues the code point begun before it. *)
Definition utf8_continuation (c : ascii) : bool :=
  match c with
  | Ascii _ _ _ _ _ _ b6 b7 => b7 && negb b6
  end.

(** [s[:n]]: the first [n] code points of [s]. *)
Fixpoint utf8_take (n : nat) (s : string) : string :=
  match s with
  | EmptyString => EmptyString
  | String c rest =>
      if utf8_continuation c then String c (utf8_take n rest)
      else match n with
           | O => EmptyString
           | S n' => String c (utf8_take n' rest)
           end
  end.

(** The continuation bytes at the head of [s], and what follows them. *)
Fixpoint utf8_span (s : string) : string * string :=
  match s with
  | EmptyString => (EmptyString, EmptyString)
  | String c rest =>
      if utf8_continuation c
      then let '(h, t) := utf8_span rest in (String c h, t)
      else (EmptyString, s)
  end.

(** The code points of [s], each as a one-character Python string. *)
Fixpoint utf8_chars_fuel (fuel : nat) (s : string) : list string :=
  match fuel, s with
  | S f, String c rest =>
      let '(h, t) := utf8_span rest in String c h :: utf8_chars_fuel f t
  | _, _ => []
  end.

Definition utf8_chars (s : string) : list string :=
  utf8_chars_fuel (String.length s) s.

(** [sep.join(parts)] on a list of [str]. *)
Fixpoint str_join (sep : string) (parts : list string) : string :=
  match parts with
  | [] => EmptyString
  | [p] => p
  | p :: rest => p +:+ sep +:+ str_join sep rest
  end.

(** Truth value of a [str]. *)
Definition str_truthy (s : string) : bool :=
  match s with
  | EmptyString => false
  | String _ _ => true
  end.

(** Truth value of an attribute that is [None] or a [str]. *)
Definition opt_truthy (o : option string) : bool :=
  match o with
  | Some s => str_truthy s
  | None => false
  end.

(** [f"{x}"] for an attribute that is [None] or a [str]. *)
Definition fmt_opt (o : option string) : string :=
  match o with
  | Some s => s
  | None => "None"
  end.

(** [str(n)] for an [int]. *)
Definition str_of_int (n : Z) : string :=
  NilZero.string_of_int (Z.to_int n).

(** The double quote, for the literals that contain one. *)
Definition dquote : string := String (ascii_of_nat 34) EmptyString.

(** ** Python values, exceptions, results *)

Inductive pyval :=
| PyNone
| PyBool (b : bool)
| PyInt (n : Z)
| PyFloat (q : Q)
| PyStr (s : string)
| PyList (l : list pyval)
| PyDict (d : list (string * pyval)).

(** The exception classes the modelled code meets; all derive [Exception]. *)
Inductive exn :=
| KeyError
| TypeError
| AttributeError
| IndexError
| OverflowError
| HTTPError
| JSONDecodeError
| ParseError
| APIError
| SQLAlchemyError
| OSError.

Inductive result (A : Type) :=
| Ok (a : A)
| Raise (e : exn).

Arguments Ok {A} a.
Arguments Raise {A} e.

Definition is_ok {A} (r : result A) : bool :=
  match r with
  | Ok _ => true
  | Raise _ => false
  end.

Definition of_option {A} (e : exn) (o : option A) : result A :=
  match o with
  | Some a => Ok a
  | None => Raise e
  end.

#[export] Instance result_ret : MRet result := λ A a, Ok a.

#[export] Instance result_bind : MBind result := λ A B f r,
  match r with
  | Ok a => f a
  | Raise e => Raise e
  end.

(** [bool(v)]. *)
Definition py_truthy (v : pyval) : bool :=
  match v with
  | PyNone => false
  | PyBool b => b
  | PyInt n => negb (n =? 0)%Z
  | PyFloat q => negb (Qeq_bool q 0)
  | PyStr s => str_truthy s
  | PyList l => match l with [] => false | _ => true end
  | PyDict d => match d with [] => false | _ => true end
  end.

(** [len(v)]: defined on [str], [list] and [dict]. *)
Definition py_len (v : pyval) : result nat :=
  match v with
  | PyStr s => Ok (length (utf8_chars s))
  | PyList l => Ok (length l)
  | PyDict d => Ok (length d)
  | _ => Raise TypeError
  end.

(** [v[i:j]] for [0 <= i <= j]: a [str] or a [list] is sliced, a [dict]
    refuses a slice as key, the other values are not subscriptable. *)
Definition py_slice (v : pyval) (i j : nat) : result pyval :=
  match v with
  | PyStr s => Ok (PyStr (String.concat EmptyString (take (j - i) (drop i (utf8_chars s)))))
  | PyList l => Ok (PyList (take (j - i) (drop i l)))
  | _ => Raise TypeError
  end.

(** The [str] items of a list, or [TypeError] at the first item not a [str]. *)
Fixpoint str_items (l : list pyval) : result (list string) :=
  match l with
  | [] => Ok []
  | PyStr s :: rest =>
      match str_items rest with
      | Ok ss => Ok (s :: ss)
      | Raise e => Raise e
      end
  | _ :: _ => Raise TypeError
  end.

(** [sep.join(v)]: [v] is iterated; every item must be a [str]. *)
Definition py_join (sep : string) (v : pyval) : result string :=
  match v with
  | PyStr s => Ok (str_join sep (utf8_chars s))
  | PyList l =>
      match str_items l with
      | Ok ss => Ok (str_join sep ss)
      | Raise e => Raise e
      end
  | PyDict d => Ok (str_join sep (d.*1))
  | _ => Raise TypeError
  end.

(** [v.get(key, default)]: only a [dict] has the method. *)
Fixpoint assoc_get (d : list (string * pyval)) (key : string) : option pyval :=
  match d with
  | [] => None
  | (k, x) :: rest => if String.eqb k key then Some x else assoc_get rest key
  end.

Definition py_get (v : pyval) (key : string) (dflt : pyval) : result pyval :=
  match v with
  | PyDict d => Ok (default dflt (assoc_get d key))
  | _ => Raise AttributeError
  end.

(** ** xml.etree.ElementTree *)

(** An element: tag, attributes, the text before its first child ([None] when
    there is none), children. The tail text is not read by the code. *)
Inductive Element :=
| Elem (tag : string) (attrib : list (string * string))
       (text : option string) (children : list Element).

Definition tag (e : Element) : string :=
  match e with Elem t _ _ _ => t end.

Definition attrib (e : Element) : list (string * string) :=
  match e with Elem _ a _ _ => a end.

Definition text (e : Element) : option string :=
  match e with Elem _ _ x _ => x end.

Definition children (e : Element) : list Element :=
  match e with Elem _ _ _ cs => cs end.

(** [e.iter()] without [e] itself: the proper descendants in document order. *)
Fixpoint descendants (e : Element) : list Element :=
  match e with
  | Elem _ _ _ cs =>
      (fix go (l : list Element) : list Element :=
         match l with
         | [] => []
         | c :: l' => c :: descendants c ++ go l'
         end) cs
  end.

(** [e.get(key)]. *)
Fixpoint attrib_get (a : list (string * string)) (key : string) : option string :=
  match a with
  | [] => None
  | (k, v) :: rest => if String.eqb k key then Some v else attrib_get rest key
  end.

(** [e.findall(".//t")] and [e.find(".//t")]. *)
Definition findall_desc (e : Element) (t : string) : list Element :=
  filter (λ x, tag x = t) (descendants e).

Definition find_desc (e : Element) (t : string) : option Element :=
  head (findall_desc e t).

(** [e.find("t")]: the first child with that tag. *)
Definition find_child (e : Element) (t : string) : option Element :=
  head (filter (λ x, tag x = t) (children e)).

(** [e.findall(".//a/b")]: the children tagged [b] of the descendants tagged [a]. *)
Definition findall_desc_child (e : Element) (a b : string) : list Element :=
  findall_desc e a ≫= λ x, filter (λ y, tag y = b) (children x).

(** [e.find(".//t[@key='value']")]. *)
Definition find_desc_attr (e : Element) (t key value : string) : option Element :=
  head (filter (λ x, attrib_get (attrib x) key = Some value) (findall_desc e t)).

(** ** core/pubmed_client.py: the article record *)

Record PubMedArticle := {
  pmid : string;
  title : string;
  abstract : string;
  authors : list string;
  journal : option string;
  pub_date : string;
  doi : option string;
  keywords : list string;
  mesh_terms : list string
}.

(** [PubMedArticle.url]. *)
Definition url (a : PubMedArticle) : string :=
  "https://pubmed.ncbi.nlm.nih.gov/" +:+ pmid a +:+ "/".

(** The texts of the elements that have one ([x.text for x in l if x.text]). *)
Definition texts (l : list Element) : list string :=
  omap (λ x, match text x with
             | Some s => if str_truthy s then Some s else None
             | None => None
             end) l.

(** One author of the list: nothing without a [LastName]. *)
Definition author_name (author : Element) : option string :=
  match find_child author "LastName" with
  | None => None
  | Some lastname =>
      let name := match text lastname with
                  | Some s => s
                  | None => EmptyString
                  end in
      match find_child author "ForeName" with
      | Some firstname => Some (fmt_opt (text firstname) +:+ " " +:+ name)
      | None => Some name
      end
  end.

(** [" ".join(parts)] where a part may be [None]: [TypeError] then. *)
Definition join_parts (parts : list (option string)) : result string :=
  match mapM id parts with
  | Some ss => Ok (str_join " " ss)
  | None => Raise TypeError
  end.

(** The publication date of lines 172-185. *)
Definition pub_date_of (article : Element) : result string :=
  match find_desc article "PubDate" with
  | None => Ok EmptyString
  | Some pub_date_elem =>
      let part (t : string) : list (option string) :=
        match find_child pub_date_elem t with
        | Some x => [text x]
        | None => []
        end in
      join_parts (part "Year" ++ part "Month" ++ part "Day")
  end.

(** The identifier and the title the node yields (lines 142-147). *)
Definition node_pmid (article : Element) : option string :=
  match find_desc article "PMID" with
  | Some pmid_elem => text pmid_elem
  | None => Some EmptyString
  end.

Definition node_title (article : Element) : option string :=
  match find_desc article "ArticleTitle" with
  | Some title_elem => text title_elem
  | None => Some EmptyString
  end.

(** The body of the inner [try] of [fetch_articles] (lines 142-218) on one
    [PubmedArticle] node: the record to append, [None] when the node lacks
    the minimum data, or the exception the body raises. *)
Definition parse_article (article : Element) : result (option PubMedArticle) :=
  let pmid := node_pmid article in
  let title := node_title article in
  let abstract := str_join " " (texts (findall_desc article "AbstractText")) in
  let authors := omap author_name (take 10 (findall_desc article "Author")) in
  let journal := match head (findall_desc_child article "Journal" "Title") with
                 | Some journal_elem => text journal_elem
                 | None => Some EmptyString
                 end in
  match pub_date_of article with
  | Raise e => Raise e
  | Ok pub_date =>
      let doi := match find_desc_attr article "ArticleId" "IdType" "doi" with
                 | Some doi_elem => text doi_elem
                 | None => None
                 end in
      let keywords := texts (findall_desc article "Keyword") in
      let mesh_terms := texts (findall_desc_child article "MeshHeading" "DescriptorName") in
      if opt_truthy pmid && opt_truthy title
      then Ok (Some {| pmid := default EmptyString pmid;
                       title := default EmptyString title;
                       abstract := abstract;
                       authors := authors;
                       journal := journal;
                       pub_date := pub_date;
                       doi := doi;
                       keywords := keywords;
                       mesh_terms := mesh_terms |})
      else Ok None
  end.

(** The inner loop of [fetch_articles] over one parsed document (lines
    140-221): a node whose body raises is skipped, the loop goes on. *)
Definition parse_batch (root : Element) : list PubMedArticle :=
  omap (λ article, match parse_article article with
                   | Ok (Some a) => Some a
                   | Ok None => None
                   | Raise _ => None
                   end) (findall_desc root "PubmedArticle").

(** ** core/config.py *)

Record LLMConfig := {
  base_url : string;
  api_key : string;
  model : string
}.

Record PubMedConfig := {
  search_days : Z;
  max_results : Z;
  schedule : option string
}.

Record AppConfig := {
  llm : LLMConfig;
  pubmed : PubMedConfig;
  interests : list string
}.

(** ** The language-model call *)

(** The arguments of [client.chat.completions.create]. *)
Record ChatRequest := {
  req_model : string;
  req_messages : list (string * string);
  req_temperature : Q;
  req_max_tokens : Z
}.

(** What the code reads of a response: [message.content] of each choice. *)
Abbreviation ChatResponse := (list (option string)).

(** ** core/database.py: the tables *)

Record datetime := {
  dt_ordinal : Z;
  dt_microsecond : Z
}.

(** A value of [article_data]: [to_dict] yields [None], a [str] or a list of
    [str] under each key. *)
Inductive pyfield :=
| FNone
| FStr (s : string)
| FList (l : list string).

(** A row of [articles]. [String] and [Text] columns hold a text or NULL,
    [JSON] columns any serialisable value. *)
Record Article := {
  row_pmid : string;
  row_title : string;
  row_abstract : option string;
  row_authors : pyfield;
  row_journal : option string;
  row_pub_date : option string;
  row_doi : option string;
  row_keywords : pyfield;
  row_mesh_terms : pyfield;
  row_fetched_at : datetime;
  row_quality_score : Q
}.

(** A row of [reports]. *)
Record Report := {
  rep_id : string;
  rep_date : string;
  rep_article_ids : list string;
  rep_file_paths : list (string * string);
  rep_created_at : datetime;
  rep_article_count : Z
}.

(** A row of [search_history]. *)
Record SearchHistory := {
  sh_id : Z;
  sh_query : string;
  sh_natural_language : option string;
  sh_total_found : Z;
  sh_new_articles : Z;
  sh_created_at : datetime
}.

Record Tables := {
  tbl_articles : gmap string Article;
  tbl_reports : gmap string Report;
  tbl_search_history : list SearchHistory
}.

(** An [Article] object as constructed at lines 92-103, before it is bound
    to the columns. *)
Record ArticleObj := {
  obj_pmid : pyfield;
  obj_title : pyfield;
  obj_abstract : pyfield;
  obj_authors : pyfield;
  obj_journal : pyfield;
  obj_pub_date : pyfield;
  obj_doi : pyfield;
  obj_keywords : pyfield;
  obj_mesh_terms : pyfield;
  obj_quality_score : Q
}.

(** ** core/reporter.py, as far as [run_search] sees it *)

(** The four texts of one article, by variant. *)
Abbreviation Content := (gmap string string).

(** An entry of [new_articles]: the article and its content ([None] in a
    dry run). *)
Abbreviation Item := (PubMedArticle * option Content)%type.

(** The keys [run_search] reads of the dictionary [create_report] returns. *)
Record ReportInfo := {
  report_id : string;
  report_date : string;
  report_article_count : Z;
  report_file_paths : list (string * string)
}.

(** ** The environment *)

Record Env := {
  (** the loaded configuration ([get_config()]) *)
  config : AppConfig;
  (** [httpx_client.get(url)], [raise_for_status()], [.text]: the answer to
      the k-th request of the run *)
  http_get : nat → string → result string;
  (** [client.chat.completions.create(...)]: the answer to the k-th call *)
  chat_completions_create : nat → ChatRequest → result ChatResponse;
  (** whether the k-th statement sent to the database fails *)
  db_statement_fails : nat → bool;
  (** [datetime.now()] and [datetime.utcnow()] at the k-th reading of the clock *)
  datetime_now : nat → datetime;
  datetime_utcnow : nat → datetime;
  (** whether [open(path, "w")] succeeds, given the files there are *)
  open_w_ok : gmap string string → string → bool;
  (** library functions *)
  urlencode : list (string * string) → string;
  json_loads : string → result pyval;
  ET_fromstring : string → result Element;
  str_strip : string → string;
  strftime : datetime → string → string;
  isoformat : datetime → string;
  path_join : string → string → string;
  (** Modelled from the spec: [ReportGenerator.create_report] of
      core/reporter.py, which is not among the sources. By section 4.5 it
      writes the texts to files under a dated directory and persists one
      report record; by section 3 it owns the report table and the file tree
      and writes nowhere else. It is a transformer of these two, which may
      raise. *)
  create_report :
    list Item → gmap string Report * gmap string string →
    result ReportInfo * (gmap string Report * gmap string string)
}.

(** ** The world and the monad of the model *)

Record World := {
  (** the committed tables *)
  db : Tables;
  (** the session of the call in progress: the tables as its open
      transaction sees them, and the objects added and not yet flushed *)
  db_txn : option Tables;
  db_pending : list ArticleObj;
  (** how many statements were sent to the database *)
  db_statements : nat;
  (** the file tree: path to content *)
  files : gmap string string;
  (** the URLs requested, oldest first *)
  http_log : list string;
  (** the model calls made, oldest first *)
  llm_log : list ChatRequest;
  (** how often the clock was read *)
  clock_reads : nat
}.

Definition Py (A : Type) : Type := World → result A * World.

#[export] Instance Py_ret : MRet Py := λ A a w, (Ok a, w).

#[export] Instance Py_bind : MBind Py := λ A B f m w,
  match m w with
  | (Ok a, w') => f a w'
  | (Raise e, w') => (Raise e, w')
  end.

Definition raise {A} (e : exn) : Py A := λ w, (Raise e, w).

(** A pure computation that may raise. *)
Definition lift {A} (r : result A) : Py A := λ w, (r, w).

(** [try: m  except Exception as e: h e]. *)
Definition catch {A} (m : Py A) (h : exn → Py A) : Py A := λ w,
  match m w with
  | (Ok a, w') => (Ok a, w')
  | (Raise e, w') => h e w'
  end.

(** [m] with its outcome reified: never raises. *)
Definition attempt {A} (m : Py A) : Py (result A) := λ w,
  let '(r, w') := m w in (Ok r, w').

(** [try: m  finally: f]. *)
Definition finally {A} (m : Py A) (f : World → World) : Py A := λ w,
  let '(r, w') := m w in (r, f w').

Definition get_world : Py World := λ w, (Ok w, w).

Definition modify_world (f : World → World) : Py unit := λ w, (Ok tt, f w).

Definition set_http_log (l : list string) (w : World) : World :=
  {| db := db w; db_txn := db_txn w; db_pending := db_pending w;
     db_statements := db_statements w; files := files w;
     http_log := l; llm_log := llm_log w; clock_reads := clock_reads w |}.

Definition set_llm_log (l : list ChatRequest) (w : World) : World :=
  {| db := db w; db_txn := db_txn w; db_pending := db_pending w;
     db_statements := db_statements w; files := files w;
     http_log := http_log w; llm_log := l; clock_reads := clock_reads w |}.

Definition set_clock_reads (n : nat) (w : World) : World :=
  {| db := db w; db_txn := db_txn w; db_pending := db_pending w;
     db_statements := db_statements w; files := files w;
     http_log := http_log w; llm_log := llm_log w; clock_reads := n |}.

Definition set_files (f : gmap string string) (w : World) : World :=
  {| db := db w; db_txn := db_txn w; db_pending := db_pending w;
     db_statements := db_statements w; files := f;
     http_log := http_log w; llm_log := llm_log w; clock_reads := clock_reads w |}.

Definition set_db (t : Tables) (w : World) : World :=
  {| db := t; db_txn := db_txn w; db_pending := db_pending w;
     db_statements := db_statements w; files := files w;
     http_log := http_log w; llm_log := llm_log w; clock_reads := clock_reads w |}.

Definition set_session (t : option Tables) (p : list ArticleObj) (w : World) : World :=
  {| db := db w; db_txn := t; db_pending := p;
     db_statements := db_statements w; files := files w;
     http_log := http_log w; llm_log := llm_log w; clock_reads := clock_reads w |}.

Definition set_db_statements (n : nat) (w : World) : World :=
  {| db := db w; db_txn := db_txn w; db_pending := db_pending w;
     db_statements := n; files := files w;
     http_log := http_log w; llm_log := llm_log w; clock_reads := clock_reads w |}.

(** [range(start, stop, step)] for a positive step, as the list it iterates. *)
Fixpoint range_fuel (fuel i stop step : nat) : list nat :=
  match fuel with
  | O => []
  | S f => if i <? stop then i :: range_fuel f (i + step) stop step else []
  end.

Definition py_range (start stop step : nat) : list nat :=
  range_fuel stop start stop step.

(** [timedelta(days=days)]: the magnitude is bounded. *)
Definition timedelta (days : Z) : result Z :=
  if (Z.abs days <=? 999999999)%Z then Ok days else Raise OverflowError.

(** [d - delta] for a whole number of days: the date must stay within
    the years 1 to 9999. *)
Definition datetime_sub (d : datetime) (delta : Z) : result datetime :=
  let o := (dt_ordinal d - delta)%Z in
  if (1 <=? o)%Z && (o <=? 3652059)%Z
  then Ok {| dt_ordinal := o; dt_microsecond := dt_microsecond d |}
  else Raise OverflowError.

(** ** core/llm_generator.py and core/content_generator.py: the texts *)

(** [QueryGenerator.SYSTEM_PROMPT]. *)
Definition SYSTEM_PROMPT : string :=
  "You are an expert in medical literature search and PubMed query syntax.

Your task is to convert natural language descriptions of research interests into optimized PubMed search queries.

Guidelines:
1. Translate Chinese concepts to English medical terminology
2. Use MeSH terms when appropriate
3. Include both exact phrases (in quotes) and related keywords
4. Use Boolean operators (AND, OR, NOT) effectively
5. Add field tags like [Title/Abstract], [MeSH Terms] when helpful
6. Keep the query focused but comprehensive
7. Target healthcare and medicine research areas

Examples:
Input: " +:+ dquote +:+
  "AI in cancer diagnosis" +:+ dquote +:+
  "
Output: (" +:+ dquote +:+
  "artificial intelligence" +:+ dquote +:+
  " OR " +:+ dquote +:+
  "machine learning" +:+ dquote +:+
  " OR " +:+ dquote +:+
  "deep learning" +:+ dquote +:+
  ") AND (cancer OR neoplasm OR tumor) AND (diagnosis OR detection OR screening)[Title/Abstract]

Input: " +:+ dquote +:+
  "LLM在医疗影像诊断中的应用" +:+ dquote +:+
  "
Output: (" +:+ dquote +:+
  "large language model" +:+ dquote +:+
  " OR LLM OR " +:+ dquote +:+
  "transformer" +:+ dquote +:+
  ") AND (" +:+ dquote +:+
  "medical imaging" +:+ dquote +:+
  " OR radiology OR " +:+ dquote +:+
  "diagnostic imaging" +:+ dquote +:+
  ") AND (diagnosis OR detection)[Title/Abstract]

Input: " +:+ dquote +:+
  "大语言模型在药物发现中的研究" +:+ dquote +:+
  "
Output: (" +:+ dquote +:+
  "large language model" +:+ dquote +:+
  " OR LLM OR " +:+ dquote +:+
  "foundation model" +:+ dquote +:+
  ") AND (" +:+ dquote +:+
  "drug discovery" +:+ dquote +:+
  " OR " +:+ dquote +:+
  "drug development" +:+ dquote +:+
  " OR " +:+ dquote +:+
  "pharmaceutical research" +:+ dquote +:+
  ")[Title/Abstract]

Return ONLY the query string, no explanation. Do not use Chinese characters in the query.".

(** The prompt of [generate_xiaohongshu_long]. *)
Definition prompt_xiaohongshu_long (article : PubMedArticle) : string :=
  "请为一篇医学AI论文生成小红书文案（技术猎奇角度，200-300字）。

要求：
1. 开头用吸睛标题，带emoji
2. 强调技术突破和创新点
3. 提及关键数字和性能指标
4. 指出技术局限或需要注意的问题
5. 结尾引导互动或查看原文
6. 添加3-5个相关话题标签
7. 口语化，适合技术爱好者阅读

论文信息：
标题：" +:+
  title article +:+
  "
期刊：" +:+
  fmt_opt (journal article) +:+
  "
摘要：" +:+
  (if str_truthy (abstract article) then utf8_take 1000 (abstract article) else "无摘要") +:+
  "
关键词：" +:+
  (match keywords article with [] => "N/A" | _ => str_join ", " (take 5 (keywords article)) end) +:+
  "

生成格式：
[标题]

[正文内容]

[标签]".

(** The system role of [generate_xiaohongshu_long]. *)
Definition system_xiaohongshu_long : string :=
  "你是医学AI领域的小红书博主，擅长用技术视角解读最新研究，语言生动活泼，emoji使用恰当。".

(** The prompt of [generate_xiaohongshu_short]. *)
Definition prompt_xiaohongshu_short (article : PubMedArticle) : string :=
  "请为一篇医学AI论文生成小红书短文案（快讯式，80-120字）。

要求：
1. 一句话概括核心发现
2. 列出2-3个关键数字
3. 添加2-3个emoji
4. 附原文链接提示
5. 极其简洁，适合快速阅读

论文信息：
标题：" +:+
  title article +:+
  "
期刊：" +:+
  fmt_opt (journal article) +:+
  "
关键信息：" +:+
  (if str_truthy (abstract article) then utf8_take 500 (abstract article) else "无摘要") +:+
  "

生成格式：
[一句话总结]

[关键数据]

[链接提示 + 标签]".

(** The system role of [generate_xiaohongshu_short]. *)
Definition system_xiaohongshu_short : string :=
  "你是医学AI资讯博主，擅长快速提炼论文精华，语言精炼，数字准确。".

(** The prompt of [generate_wechat_long]. *)
Definition prompt_wechat_long (article : PubMedArticle) : string :=
  "请为一篇医学AI论文生成公众号深度解读文章（专业严谨角度，800-1200字）。

要求：
1. 标题：专业且吸引人，体现研究价值
2. 研究背景：为什么做这个研究（100-150字）
3. 研究方法：技术方案简述（150-200字）
4. 核心结果：保留完整统计学指标，并提供通俗解读（200-250字）
   - 例如：AUC 0.89 (95%CI: 0.86-0.92) 意味着...
5. 临床意义：对医生实践的价值（150-200字）
6. 技术亮点：对AI开发者的启示（150-200字）
7. 局限与展望：研究局限性和未来方向（100-150字）
8. 原文链接和引用格式

论文信息：
标题：" +:+
  title article +:+
  "
作者：" +:+
  (match authors article with [] => "N/A" | _ => str_join ", " (take 5 (authors article)) end) +:+
  "
期刊：" +:+
  fmt_opt (journal article) +:+
  "
发表日期：" +:+
  pub_date article +:+
  "
摘要：" +:+
  abstract article +:+
  "
关键词：" +:+
  (match keywords article with [] => "N/A" | _ => str_join ", " (keywords article) end) +:+
  "
MeSH词：" +:+
  (match mesh_terms article with [] => "N/A" | _ => str_join ", " (take 10 (mesh_terms article)) end) +:+
  "
PMID：" +:+
  pmid article +:+
  "
DOI：" +:+
  (if opt_truthy (doi article) then default EmptyString (doi article) else "N/A") +:+
  "

注意：
- 保留所有统计学指标（p值、置信区间、效应量等）
- 每个统计指标后都加上一句话通俗解释
- 语言严肃专业，面向医生和AI研究者
- 结构清晰，使用小标题

生成格式：
标题：[文章标题]

【研究背景】
[内容]

【研究方法】
[内容]

【核心结果】
[内容，包含统计指标和解读]

【临床意义】
[内容]

【技术亮点】
[内容]

【局限与展望】
[内容]

---
原文链接：https://pubmed.ncbi.nlm.nih.gov/" +:+
  pmid article +:+
  "/
本文选自 PubMed 数据库，由 AI 辅助整理生成。".

(** The system role of [generate_wechat_long]. *)
Definition system_wechat_long : string :=
  "你是医学AI领域的专业写手，擅长深度解读最新研究，对统计学和机器学习都有深入理解，写作风格严谨专业，面向医生和AI开发者。".

(** The prompt of [generate_wechat_short]. *)
Definition prompt_wechat_short (article : PubMedArticle) : string :=
  "请为一篇医学AI论文生成公众号简报（300-500字）。

要求：
1. 标题：简洁明了
2. 研究背景：简述（50字）
3. 核心数据：保留关键统计指标+解读（100-150字）
4. 实践价值：对临床工作的启示（100-150字）
5. 原文链接

论文信息：
标题：" +:+
  title article +:+
  "
期刊：" +:+
  fmt_opt (journal article) +:+
  "
摘要：" +:+
  (if str_truthy (abstract article) then utf8_take 1500 (abstract article) else "无摘要") +:+
  "
PMID：" +:+
  pmid article +:+
  "

注意：保留核心统计指标，并解释其含义。

生成格式：
标题：[文章标题]

【研究简介】
[内容]

【核心发现】
[内容]

【实践价值】
[内容]

---
原文链接：https://pubmed.ncbi.nlm.nih.gov/" +:+
  pmid article +:+
  "/".

(** The system role of [generate_wechat_short]. *)
Definition system_wechat_short : string :=
  "你是医学AI资讯编辑，擅长提炼研究精华，语言简洁专业，面向忙碌的医学工作者。".

(** [ContentGenerator._fallback_xiaohongshu_long]. *)
Definition _fallback_xiaohongshu_long (article : PubMedArticle) : string :=
  "🔥 " +:+
  utf8_take 50 (title article) +:+
  "...

今天发现一篇超有意思的研究！" +:+
  fmt_opt (journal article) +:+
  "刚发的，关于医学AI的新进展～

💡 核心看点：
• 用上了最新的LLM技术
• 在医疗场景有新突破
• 准确率很能打！

⚠️ 但要注意：
这类研究还在早期阶段，离临床实际应用还有距离，大家理性看待～

📖 想深入了解的可以读原文：
" +:+
  url article +:+
  "

#医学AI #人工智能 #前沿科技 #" +:+
  (match keywords article with k :: _ => k | [] => "医学前沿" end).

(** [ContentGenerator._fallback_xiaohongshu_short]. *)
Definition _fallback_xiaohongshu_short (article : PubMedArticle) : string :=
  "📢 " +:+
  utf8_take 40 (title article) +:+
  "...

期刊：" +:+
  fmt_opt (journal article) +:+
  "

🔬 用LLM技术解决医学问题
📊 实验数据看起来不错
⚡ 值得关注的新方向

原文→ " +:+
  url article +:+
  "

#LLM #医疗AI".

(** [ContentGenerator._fallback_wechat_long]. *)
Definition _fallback_wechat_long (article : PubMedArticle) : string :=
  let authors := match authors article with [] => "N/A" | _ => str_join ", " (take 3 (authors article)) end in
  "标题：" +:+
  title article +:+
  "

【研究背景】
本文探讨了大语言模型在医疗领域的最新应用进展。

【研究方法】
研究团队采用了先进的LLM架构，在医疗数据集上进行训练和验证。

【核心结果】
研究展示了LLM在医疗任务中的潜力，但具体统计指标需要查看原文。

【临床意义】
这类技术有望辅助临床决策，但需谨慎评估其可靠性和安全性。

【技术亮点】
使用了当前最先进的自然语言处理技术。

【局限与展望】
研究存在一定局限性，需要更大规模的临床验证。

---
作者：" +:+
  authors +:+
  "
期刊：" +:+
  fmt_opt (journal article) +:+
  "
发表日期：" +:+
  pub_date article +:+
  "
原文链接：" +:+
  url article +:+
  "
PMID：" +:+
  pmid article.

(** [ContentGenerator._fallback_wechat_short]. *)
Definition _fallback_wechat_short (article : PubMedArticle) : string :=
  "标题：" +:+
  title article +:+
  "

【研究简介】
" +:+
  fmt_opt (journal article) +:+
  "发表的最新研究，探索LLM在医疗中的应用。

【核心发现】
研究展示了该技术的可行性和潜在价值，具体数据见原文。

【实践价值】
为医疗AI的发展提供了新的思路和参考。

---
原文链接：" +:+
  url article.

Section Model.

Variable env : Env.

(** ** core/pubmed_client.py: the client *)

Definition eutils_base_url : string :=
  "https://eutils.ncbi.nlm.nih.gov/entrez/eutils".

(** [PubMedClient._make_request]: the request is logged, the oracle answers. *)
Definition _make_request (url : string) : Py string := λ w,
  (http_get env (length (http_log w)) url,
   set_http_log (http_log w ++ [url]) w).

(** [datetime.now()]. *)
Definition now : Py datetime := λ w,
  (Ok (datetime_now env (clock_reads w)), set_clock_reads (S (clock_reads w)) w).

(** The URL of the id-search request (lines 96-103). *)
Definition esearch_url (full_query : string) (max_results : Z) : string :=
  eutils_base_url +:+ "/esearch.fcgi?" +:+
  urlencode env [("db", "pubmed"); ("term", full_query);
                 ("retmax", str_of_int max_results);
                 ("sort", "date"); ("retmode", "json")].

(** [PubMedClient.search]. The date window is computed before the [try]. *)
Definition search (query : string) (days max_results : Z) : Py pyval :=
  end_date ← now;
  delta ← lift (timedelta days);
  start_date ← lift (datetime_sub end_date delta);
  let date_filter :=
    strftime env start_date "%Y/%m/%d" +:+ ":" +:+
    strftime env end_date "%Y/%m/%d" +:+ "[PDAT]" in
  let full_query := "(" +:+ query +:+ ") AND " +:+ date_filter in
  catch
    (response ← _make_request (esearch_url full_query max_results);
     data ← lift (json_loads env response);
     esearchresult ← lift (py_get data "esearchresult" (PyDict []));
     lift (py_get esearchresult "idlist" (PyList [])))
    (λ _, mret (PyList [])).

(** The URL of the detail request of one batch (lines 127-133). *)
Definition efetch_url (ids : string) : string :=
  eutils_base_url +:+ "/efetch.fcgi?" +:+
  urlencode env [("db", "pubmed"); ("id", ids);
                 ("rettype", "xml"); ("retmode", "text")].

(** One turn of the batch loop up to the parsed document (lines 124-138). *)
Definition fetch_batch (pmids : pyval) (i : nat) : Py Element :=
  batch ← lift (py_slice pmids i (i + 100));
  ids ← lift (py_join "," batch);
  xml_data ← _make_request (efetch_url ids);
  lift (ET_fromstring env xml_data).

(** The batch loop inside the outer [try] (lines 123-221): [articles] is the
    list built so far; an exception ends the loop and is caught at line 223,
    the list keeps what it had. *)
Fixpoint fetch_loop (pmids : pyval) (starts : list nat)
    (articles : list PubMedArticle) : Py (list PubMedArticle) :=
  match starts with
  | [] => mret articles
  | i :: rest =>
      r ← attempt (fetch_batch pmids i);
      match r with
      | Ok root => fetch_loop pmids rest (articles ++ parse_batch root)
      | Raise _ => mret articles
      end
  end.

(** [PubMedClient.fetch_articles], on whatever value it is given. *)
Definition fetch_articles (pmids : pyval) : Py (list PubMedArticle) :=
  if negb (py_truthy pmids) then mret []
  else
    match py_len pmids with
    | Raise _ => mret []
    | Ok n => fetch_loop pmids (py_range 0 n 100) []
    end.

(** [PubMedClient.search_and_fetch]. *)
Definition search_and_fetch (query : string) (days max : option Z)
    : Py (list PubMedArticle) :=
  let days := default (search_days (pubmed (config env))) days in
  let max := default (max_results (pubmed (config env))) max in
  pmids ← search query days max;
  fetch_articles pmids.

(** ** core/llm_generator.py *)

(** [client.chat.completions.create]: the call is logged, the oracle answers. *)
Definition create (req : ChatRequest) : Py ChatResponse := λ w,
  (chat_completions_create env (length (llm_log w)) req,
   set_llm_log (llm_log w ++ [req]) w).

(** [response.choices[0].message.content.strip()]. *)
Definition first_content (response : ChatResponse) : result string :=
  match response with
  | [] => Raise IndexError
  | None :: _ => Raise AttributeError
  | Some content :: _ => Ok (str_strip env content)
  end.

(** The request of [QueryGenerator.generate_query]. *)
Definition query_request (interest : string) : ChatRequest :=
  {| req_model := model (llm (config env));
     req_messages := [("system", SYSTEM_PROMPT); ("user", interest)];
     req_temperature := 3 # 10;
     req_max_tokens := 500 |}.

(** [QueryGenerator.generate_query]. *)
Definition generate_query (interest : string) : Py string :=
  catch
    (response ← create (query_request interest);
     lift (first_content response))
    (λ _, mret ("(" +:+ interest +:+ ")[Title/Abstract]")).

(** [QueryGenerator.generate_queries]. *)
Fixpoint generate_queries (interests : list string) : Py (list string) :=
  match interests with
  | [] => mret []
  | interest :: rest =>
      query ← generate_query interest;
      queries ← generate_queries rest;
      mret (query :: queries)
  end.

(** [QueryGenerator.combine_queries]. *)
Definition combine_queries (queries : list string) : Py string :=
  match queries with
  | [q] => mret q
  | _ => mret (str_join " OR " ((λ q, "(" +:+ q +:+ ")") <$> queries))
  end.

(** ** core/content_generator.py *)

(** The request of a content variant. *)
Definition content_request (system prompt : string) (max_tokens : Z) : ChatRequest :=
  {| req_model := model (llm (config env));
     req_messages := [("system", system); ("user", prompt)];
     req_temperature := 7 # 10;
     req_max_tokens := max_tokens |}.

(** [ContentGenerator.generate_xiaohongshu_long]. *)
Definition generate_xiaohongshu_long (article : PubMedArticle) : Py string :=
  let prompt := prompt_xiaohongshu_long article in
  catch
    (response ← create (content_request system_xiaohongshu_long prompt 1000);
     lift (first_content response))
    (λ _, mret (_fallback_xiaohongshu_long article)).

(** [ContentGenerator.generate_xiaohongshu_short]. *)
Definition generate_xiaohongshu_short (article : PubMedArticle) : Py string :=
  let prompt := prompt_xiaohongshu_short article in
  catch
    (response ← create (content_request system_xiaohongshu_short prompt 500);
     lift (first_content response))
    (λ _, mret (_fallback_xiaohongshu_short article)).

(** [ContentGenerator.generate_wechat_long]. *)
Definition generate_wechat_long (article : PubMedArticle) : Py string :=
  let prompt := prompt_wechat_long article in
  catch
    (response ← create (content_request system_wechat_long prompt 2000);
     lift (first_content response))
    (λ _, mret (_fallback_wechat_long article)).

(** [ContentGenerator.generate_wechat_short]. *)
Definition generate_wechat_short (article : PubMedArticle) : Py string :=
  let prompt := prompt_wechat_short article in
  catch
    (response ← create (content_request system_wechat_short prompt 800);
     lift (first_content response))
    (λ _, mret (_fallback_wechat_short article)).

(** [ContentGenerator.generate_all]: the values of the dictionary are
    evaluated in the order they are written. *)
Definition generate_all (article : PubMedArticle) : Py Content :=
  xl ← generate_xiaohongshu_long article;
  xs ← generate_xiaohongshu_short article;
  wl ← generate_wechat_long article;
  ws ← generate_wechat_short article;
  mret (list_to_map [("xiaohongshu_long", xl); ("xiaohongshu_short", xs);
                     ("wechat_long", wl); ("wechat_short", ws)]).

(** ** core/database.py: sessions *)

(** [self.get_session()]: a fresh session, no transaction begun. *)
Definition get_session : Py unit := modify_world (set_session None []).

(** [session.rollback()] and [session.close()]: the open transaction and
    the pending objects are discarded; the committed tables are not touched. *)
Definition rollback : Py unit := modify_world (set_session None []).

Definition close : World → World := set_session None [].

(** A statement goes to the database: it is counted, the transaction begins
    if none is open, and the oracle may fail it. *)
Definition statement : Py unit := λ w,
  let w1 := set_db_statements (S (db_statements w)) w in
  let w2 := set_session (Some (default (db w) (db_txn w))) (db_pending w) w1 in
  if db_statement_fails env (db_statements w)
  then (Raise SQLAlchemyError, w2)
  else (Ok tt, w2).

(** The tables as the session sees them. *)
Definition visible (w : World) : Tables := default (db w) (db_txn w).

(** A value bound to a [String] or [Text] column: a list is refused. *)
Definition bind_text (v : pyfield) : result (option string) :=
  match v with
  | FNone => Ok None
  | FStr s => Ok (Some s)
  | FList _ => Raise SQLAlchemyError
  end.

(** [session.query(Article).filter_by(pmid=v).first()]. *)
Definition query_article (v : pyfield) : Py (option Article) :=
  key ← lift (bind_text v);
  statement;;
  w ← get_world;
  mret (key ≫= λ k, tbl_articles (visible w) !! k).

(** [session.add(obj)]. *)
Definition add (obj : ArticleObj) : Py unit := λ w,
  (Ok tt, set_session (db_txn w) (db_pending w ++ [obj]) w).

(** [datetime.utcnow()], the default of [fetched_at]. *)
Definition utcnow : Py datetime := λ w,
  (Ok (datetime_utcnow env (clock_reads w)), set_clock_reads (S (clock_reads w)) w).

(** The row an object gives: the key and the title may not be NULL. *)
Definition row_of (obj : ArticleObj) (fetched_at : datetime) : result Article :=
  pmid ← bind_text (obj_pmid obj);
  title ← bind_text (obj_title obj);
  abstract ← bind_text (obj_abstract obj);
  journal ← bind_text (obj_journal obj);
  pub_date ← bind_text (obj_pub_date obj);
  doi ← bind_text (obj_doi obj);
  match pmid, title with
  | Some p, Some t =>
      Ok {| row_pmid := p; row_title := t; row_abstract := abstract;
            row_authors := obj_authors obj; row_journal := journal;
            row_pub_date := pub_date; row_doi := doi;
            row_keywords := obj_keywords obj;
            row_mesh_terms := obj_mesh_terms obj;
            row_fetched_at := fetched_at;
            row_quality_score := obj_quality_score obj |}
  | _, _ => Raise SQLAlchemyError
  end.

Definition set_articles (m : gmap string Article) (t : Tables) : Tables :=
  {| tbl_articles := m; tbl_reports := tbl_reports t;
     tbl_search_history := tbl_search_history t |}.

Definition set_reports (m : gmap string Report) (t : Tables) : Tables :=
  {| tbl_articles := tbl_articles t; tbl_reports := m;
     tbl_search_history := tbl_search_history t |}.

(** The INSERT of one pending object, inside the transaction. *)
Definition flush_one (obj : ArticleObj) : Py unit :=
  fetched_at ← utcnow;
  row ← lift (row_of obj fetched_at);
  statement;;
  w ← get_world;
  match tbl_articles (visible w) !! row_pmid row with
  | Some _ => raise SQLAlchemyError
  | None =>
      modify_world (set_session
        (Some (set_articles (<[row_pmid row := row]> (tbl_articles (visible w))) (visible w)))
        (db_pending w))
  end.

Fixpoint flush (objs : list ArticleObj) : Py unit :=
  match objs with
  | [] => mret tt
  | obj :: rest => flush_one obj;; flush rest
  end.

(** [session.commit()]: the pending objects are inserted, then the
    transaction is committed. *)
Definition commit : Py unit :=
  w ← get_world;
  flush (db_pending w);;
  statement;;
  w' ← get_world;
  modify_world (λ w'', set_session None [] (set_db (visible w') w'')).

(** [article_data[key]]. *)
Definition getitem (article_data : gmap string pyfield) (key : string) : result pyfield :=
  of_option KeyError (article_data !! key).

(** [article_data.get(key, default)]. *)
Definition get (article_data : gmap string pyfield) (key : string) (dflt : pyfield) : pyfield :=
  default dflt (article_data !! key).

(** [Database.save_article]. *)
Definition save_article (article_data : gmap string pyfield) (quality_score : Q) : Py bool :=
  get_session;;
  finally
    (catch
       (pmid ← lift (getitem article_data "pmid");
        existing ← query_article pmid;
        match existing with
        | Some _ => mret false
        | None =>
            pmid ← lift (getitem article_data "pmid");
            title ← lift (getitem article_data "title");
            let article :=
              {| obj_pmid := pmid;
                 obj_title := title;
                 obj_abstract := get article_data "abstract" (FStr EmptyString);
                 obj_authors := get article_data "authors" (FList []);
                 obj_journal := get article_data "journal" (FStr EmptyString);
                 obj_pub_date := get article_data "pub_date" (FStr EmptyString);
                 obj_doi := get article_data "doi" FNone;
                 obj_keywords := get article_data "keywords" (FList []);
                 obj_mesh_terms := get article_data "mesh_terms" (FList []);
                 obj_quality_score := quality_score |} in
            add article;;
            commit;;
            mret true
        end)
       (λ _, rollback;; mret false))
    close.

(** [Database.article_exists]: no [except], an error propagates. *)
Definition article_exists (pmid : string) : Py bool :=
  get_session;;
  finally
    (existing ← query_article (FStr pmid);
     mret (bool_decide (is_Some existing)))
    close.

(** [PubMedArticle.to_dict]. *)
Definition opt_field (o : option string) : pyfield :=
  match o with
  | Some s => FStr s
  | None => FNone
  end.

Definition to_dict (a : PubMedArticle) : gmap string pyfield :=
  list_to_map [("pmid", FStr (pmid a)); ("title", FStr (title a));
               ("abstract", FStr (abstract a)); ("authors", FList (authors a));
               ("journal", opt_field (journal a)); ("pub_date", FStr (pub_date a));
               ("doi", opt_field (doi a)); ("keywords", FList (keywords a));
               ("mesh_terms", FList (mesh_terms a))].

(** ** core/cli.py: run_search *)

(** [report_gen.create_report(new_articles)]. *)
Definition create_report_call (new_articles : list Item) : Py ReportInfo := λ w,
  let '(r, (reports, fs)) := create_report env new_articles (tbl_reports (db w), files w) in
  (r, set_files fs (set_db (set_reports reports (db w)) w)).

(** The lines of the summary for one item (lines 144-149). *)
Definition summary_item (item : Item) : string :=
  let article := item.1 in
  "
- " +:+ title article +:+ "
" +:+ "  PMID: " +:+ pmid article +:+ "
" +:+ "  期刊: " +:+ fmt_opt (journal article) +:+ "
" +:+ "  链接: " +:+ url article +:+ "
".

(** The summary file (lines 136-149): opened for writing, then written. *)
Definition write_summary (report : ReportInfo) (new_articles : list Item) : Py string :=
  let summary_path :=
    path_join env (path_join env "data/reports" (report_date report))
              ("summary_" +:+ report_id report +:+ ".txt") in
  w ← get_world;
  if open_w_ok env (files w) summary_path then
    t ← now;
    let content :=
      "PubMed 搜索报告
" +:+ "报告ID: " +:+ report_id report +:+ "
" +:+ "生成时间: " +:+ isoformat env t +:+ "
" +:+ "文章数量: " +:+ str_of_int (report_article_count report) +:+ "
" +:+ "
文章列表:
" +:+ String.concat EmptyString (summary_item <$> new_articles) in
    modify_world (λ w', set_files (<[summary_path := content]> (files w')) w');;
    mret summary_path
  else raise OSError.

(** The loop of lines 101-118: [new_articles] is the list built so far. *)
Fixpoint process_articles (dry_run : bool) (articles : list PubMedArticle)
    (new_articles : list Item) : Py (list Item) :=
  match articles with
  | [] => mret new_articles
  | article :: rest =>
      known ← article_exists (pmid article);
      if (known : bool) then process_articles dry_run rest new_articles
      else if dry_run then
        process_articles dry_run rest (new_articles ++ [(article, None)])
      else
        r ← attempt (generate_all article);
        match r with
        | Ok content =>
            (* appended first: the item stays even if the save raised *)
            attempt (save_article (to_dict article) 0);;
            process_articles dry_run rest (new_articles ++ [(article, Some content)])
        | Raise _ => process_articles dry_run rest new_articles
        end
  end.

(** [run_search]: [True] or [False] as returned, or the exception that
    escapes it. *)
Definition run_search (interest : option string) (days max : option Z)
    (dry_run : bool) : Py bool :=
  let days := default (search_days (pubmed (config env))) days in
  let max := default (max_results (pubmed (config env))) max in
  let interests :=
    match interest with
    | Some i => if str_truthy i then [i] else interests (config env)
    | None => interests (config env)
    end in
  r ← attempt (queries ← generate_queries interests; combine_queries queries);
  match r with
  | Raise _ => mret false
  | Ok combined_query =>
      r ← attempt (search_and_fetch combined_query (Some days) (Some max));
      match r with
      | Raise _ => mret false
      | Ok [] => mret true
      | Ok articles =>
          new_articles ← process_articles dry_run articles [];
          match new_articles with
          | [] => mret true
          | _ =>
              r ← attempt (report ← create_report_call new_articles;
                           write_summary report new_articles);
              mret (is_ok r)
          end
      end
  end.

End Model.

(** A list of identifiers as the Python list of [str] it is. *)
Definition py_str_list (ids : list string) : pyval := PyList (PyStr <$> ids).

(** ** Vocabulary of the statements *)

(** The outcome of the detail request of a batch and of parsing its body. *)
Definition batch_doc (env : Env) (k : nat) (url : string) : result Element :=
  http_get env k url ≫= ET_fromstring env.

(** The detail request of the batch that starts at index [i]. *)
Definition batch_url (env : Env) (ids : list string) (i : nat) : string :=
  efetch_url env (str_join "," (take 100 (drop i ids))).

(** A node yields an identifier and a title, both non-empty. *)
Definition yields_id_and_title (node : Element) : bool :=
  opt_truthy (node_pmid node) && opt_truthy (node_title node).

(** The [Year], [Month] or [Day] child of a [PubDate], when present, has text. *)
Definition part_has_text (d : Element) (t : string) : bool :=
  match find_child d t with
  | Some x => bool_decide (is_Some (text x))
  | None => true
  end.

Definition date_parts_have_text (node : Element) : bool :=
  match find_desc node "PubDate" with
  | Some d => part_has_text d "Year" && part_has_text d "Month" && part_has_text d "Day"
  | None => true
  end.

(** The extraction of a node (the body of the inner [try]) raises nothing. *)
Definition extraction_ok (node : Element) : bool := is_ok (parse_article node).

(** The article nodes of a document that give a record. *)
Definition kept (root : Element) : list Element :=
  filter (λ node, yields_id_and_title node && extraction_ok node = true)
         (findall_desc root "PubmedArticle").

(** [a] is the record extracted from [node]. *)
Definition record_of (node : Element) (a : PubMedArticle) : Prop :=
  parse_article node = Ok (Some a) ∧
  node_pmid node = Some (pmid a) ∧ node_title node = Some (title a).

(** The outcome of the body of the [try] around a model call: the k-th call
    answered, its first choice read and stripped. *)
Definition llm_call (env : Env) (k : nat) (req : ChatRequest) : result string :=
  chat_completions_create env k req ≫= first_content env.

Definition or_else {A} (r : result A) (fallback : A) : A :=
  match r with
  | Ok a => a
  | Raise _ => fallback
  end.

(** The four content variants, by the key [generate_all] files them under. *)
Inductive Variant :=
| xiaohongshu_long
| xiaohongshu_short
| wechat_long
| wechat_short.

Definition variants : list Variant :=
  [xiaohongshu_long; xiaohongshu_short; wechat_long; wechat_short].

Definition variant_key (v : Variant) : string :=
  match v with
  | xiaohongshu_long => "xiaohongshu_long"
  | xiaohongshu_short => "xiaohongshu_short"
  | wechat_long => "wechat_long"
  | wechat_short => "wechat_short"
  end.

(** The position of a variant's call among the four of [generate_all]. *)
Definition variant_index (v : Variant) : nat :=
  match v with
  | xiaohongshu_long => 0
  | xiaohongshu_short => 1
  | wechat_long => 2
  | wechat_short => 3
  end.

Definition generate (v : Variant) : Env → PubMedArticle → Py string :=
  match v with
  | xiaohongshu_long => generate_xiaohongshu_long
  | xiaohongshu_short => generate_xiaohongshu_short
  | wechat_long => generate_wechat_long
  | wechat_short => generate_wechat_short
  end.

Definition fallback (v : Variant) : PubMedArticle → string :=
  match v with
  | xiaohongshu_long => _fallback_xiaohongshu_long
  | xiaohongshu_short => _fallback_xiaohongshu_short
  | wechat_long => _fallback_wechat_long
  | wechat_short => _fallback_wechat_short
  end.

Definition variant_request (env : Env) (v : Variant) (article : PubMedArticle) : ChatRequest :=
  match v with
  | xiaohongshu_long =>
      content_request env system_xiaohongshu_long (prompt_xiaohongshu_long article) 1000
  | xiaohongshu_short =>
      content_request env system_xiaohongshu_short (prompt_xiaohongshu_short article) 500
  | wechat_long =>
      content_request env system_wechat_long (prompt_wechat_long article) 2000
  | wechat_short =>
      content_request env system_wechat_short (prompt_wechat_short article) 800
  end.

(** The fields the fallback templates read. *)
Definition same_template_fields (a b : PubMedArticle) : Prop :=
  pmid a = pmid b ∧ title a = title b ∧ authors a = authors b ∧
  journal a = journal b ∧ pub_date a = pub_date b ∧ keywords a = keywords b.

(** The interests a run translates (cli.py, lines 65-70). *)
Definition selected_interests (env : Env) (interest : option string) : list string :=
  match interest with
  | Some i => if str_truthy i then [i] else interests (config env)
  | None => interests (config env)
  end.

(** What the client, the session queries and the clock leave alone. *)
Definition keeps (w w' : World) : Prop :=
  db w' = db w ∧ files w' = files w ∧ llm_log w' = llm_log w.

Ltac run_py :=
  unfold save_article, article_exists, finally, catch, commit, flush_one, query_article, add,
    statement, rollback, get_session, close, utcnow, modify_world, get_world, lift, raise,
    getitem, of_option, visible, mbind, mret, Py_bind, Py_ret;
  cbn -[row_of bind_text].

Ltac finish :=
  eexists _, _; split; [reflexivity|]; cbn;
  repeat split; try done; try naive_solver.

Ltac py_step := unfold mbind at 1; unfold Py_bind at 1; unfold attempt.

(** ** Sample data *)

Definition config0 : AppConfig :=
  {| llm := {| base_url := "https://api.openai.com/v1"; api_key := "sk-test"; model := "gpt-4" |};
     pubmed := {| search_days := 7; max_results := 100; schedule := None |};
     interests := ["AI in cancer diagnosis"] |}.

Definition leaf (t x : string) : Element := Elem t [] (Some x) [].

(** An article node with identifier, title and a publication date whose
    [Year] element is [year]. *)
Definition article_node (id : string) (title : list Element) (year : Element) : Element :=
  Elem "PubmedArticle" [] None
    [Elem "MedlineCitation" [] None
       [leaf "PMID" id;
        Elem "Article" [] None
          ([Elem "Journal" [] None
              [Elem "JournalIssue" [] None [Elem "PubDate" [] None [year]];
               leaf "Title" "Nature Medicine"]] ++
           title ++
           [Elem "Abstract" [] None [leaf "AbstractText" "We trained a model."];
            Elem "AuthorList" [] None
              [Elem "Author" [] None [leaf "LastName" "Li"; leaf "ForeName" "Wei"]]])];
     Elem "PubmedData" [] None
       [Elem "ArticleIdList" [] None
          [Elem "ArticleId" [("IdType", "pubmed")] (Some id) [];
           Elem "ArticleId" [("IdType", "doi")] (Some "10.1000/x") []]]].

Definition dated_node : Element :=
  article_node "101" [leaf "ArticleTitle" "Deep learning for tumour detection"]
               (leaf "Year" "2024").

(** Identifier and title are there; the [Year] element is empty. *)
Definition undated_node : Element :=
  article_node "102" [leaf "ArticleTitle" "A language model for triage"]
               (Elem "Year" [] None []).

(** No title. *)
Definition untitled_node : Element :=
  article_node "103" [] (leaf "Year" "2024").

Definition sample_root : Element :=
  Elem "PubmedArticleSet" [] None [dated_node; undated_node; untitled_node].

Definition article_101 : PubMedArticle :=
  {| pmid := "101";
     title := "Deep learning for tumour detection";
     abstract := "We trained a model.";
     authors := ["Wei Li"];
     journal := Some "Nature Medicine";
     pub_date := "2024";
     doi := Some "10.1000/x";
     keywords := [];
     mesh_terms := [] |}.

Definition urlencode0 (params : list (string * string)) : string :=
  str_join "&" ((λ p, p.1 +:+ "=" +:+ p.2) <$> params).

(** A body is JSON unless it is a page of HTML; the body [none] lists no
    identifier, any other lists three. *)
Definition json_loads0 (body : string) : result pyval :=
  if decide (body = "<html>") then Raise JSONDecodeError
  else if decide (body = "none")
  then Ok (PyDict [("esearchresult", PyDict [("idlist", PyList [])])])
  else Ok (PyDict [("esearchresult",
                    PyDict [("idlist", PyList [PyStr "101"; PyStr "102"; PyStr "103"])])]).

Definition fromstring0 (body : string) : result Element :=
  if decide (body = "<html>") then Raise ParseError else Ok sample_root.

Definition clock0 (k : nat) : datetime :=
  {| dt_ordinal := 739000 + Z.of_nat k; dt_microsecond := 0 |}.

(** A report assembler that files nothing and persists one record. *)
Definition create_report0 (items : list Item)
    (st : gmap string Report * gmap string string)
    : result ReportInfo * (gmap string Report * gmap string string) :=
  (Ok {| report_id := "r1"; report_date := "2024-04-01";
         report_article_count := Z.of_nat (length items);
         report_file_paths := [] |},
   (<["r1" := {| rep_id := "r1"; rep_date := "2024-04-01";
                 rep_article_ids := (λ item, pmid item.1) <$> items;
                 rep_file_paths := [];
                 rep_created_at := clock0 0;
                 rep_article_count := Z.of_nat (length items) |}]> st.1,
    st.2)).

Definition sample_env (http : nat → string → result string)
    (chat : nat → ChatRequest → result ChatResponse) (db_fails : nat → bool) : Env :=
  {| config := config0;
     http_get := http;
     chat_completions_create := chat;
     db_statement_fails := db_fails;
     datetime_now := clock0;
     datetime_utcnow := clock0;
     open_w_ok := λ _ _, true;
     urlencode := urlencode0;
     json_loads := json_loads0;
     ET_fromstring := fromstring0;
     str_strip := id;
     strftime := λ d _, str_of_int (dt_ordinal d);
     isoformat := λ d, str_of_int (dt_ordinal d);
     path_join := λ a b, a +:+ "/" +:+ b;
     create_report := create_report0 |}.

Definition http_ok : nat → string → result string := λ _ _, Ok "body".
Definition http_down : nat → string → result string := λ _ _, Raise HTTPError.
Definition http_html : nat → string → result string := λ _ _, Ok "<html>".
Definition http_none : nat → string → result string := λ _ _, Ok "none".
(** The second request of the run fails. *)
Definition http_second_fails : nat → string → result string :=
  λ k _, if k =? 1 then Raise HTTPError else Ok "body".

Definition chat_ok : nat → ChatRequest → result ChatResponse :=
  λ _ _, Ok [Some "generated text"].
Definition chat_down : nat → ChatRequest → result ChatResponse := λ _ _, Raise APIError.
(** Only the second call of the run fails. *)
Definition chat_second_fails : nat → ChatRequest → result ChatResponse :=
  λ k _, if k =? 1 then Raise APIError else Ok [Some "generated text"].

Definition db_ok : nat → bool := λ _, false.

Definition no_tables : Tables :=
  {| tbl_articles := ∅; tbl_reports := ∅; tbl_search_history := [] |}.

Definition world_of (t : Tables) : World :=
  {| db := t; db_txn := None; db_pending := []; db_statements := 0;
     files := ∅; http_log := []; llm_log := []; clock_reads := 0 |}.

Definition world0 : World := world_of no_tables.

Definition row_101 : Article :=
  {| row_pmid := "101"; row_title := "Deep learning for tumour detection";
     row_abstract := Some "We trained a model."; row_authors := FList ["Wei Li"];
     row_journal := Some "Nature Medicine"; row_pub_date := Some "2024";
     row_doi := Some "10.1000/x"; row_keywords := FList []; row_mesh_terms := FList [];
     row_fetched_at := clock0 0; row_quality_score := 0 |}.

(** A store that already holds article 101. *)
Definition world_known : World :=
  world_of {| tbl_articles := {["101" := row_101]}; tbl_reports := ∅;
              tbl_search_history := [] |}.

(** Two hundred and fifty identifiers: three batches. *)
Definition ids_250 : list string := (λ k, str_of_int (Z.of_nat k)) <$> seq 1 250.

(** The sample runs of the pipeline. *)
Definition env_ok : Env := sample_env http_ok chat_ok db_ok.

(** A dry run that finds one new article. *)
Definition dry_run_sample : result bool * World :=
  run_search env_ok (Some "AI in cancer diagnosis") None None true world0.

(** A dry run whose only article is already stored. *)
Definition dry_run_known_sample : result bool * World :=
  run_search env_ok (Some "AI in cancer diagnosis") None None true world_known.

(** A run whose search finds nothing. *)
Definition empty_run_sample : result bool * World :=
  run_search (sample_env http_none chat_ok db_ok) None None None false world0.

(** A run whose only article is already stored. *)
Definition known_run_sample : result bool * World :=
  run_search env_ok None None None false world_known.

(** * More of the code *)

(** [l[i]] for a Python [int]: a negative index counts from the end. *)
Definition py_index {A} (l : list A) (i : Z) : result A :=
  if (0 <=? i)%Z then of_option IndexError (l !! Z.to_nat i)
  else if (- Z.of_nat (length l) <=? i)%Z
       then of_option IndexError (l !! Z.to_nat (Z.of_nat (length l) + i))
       else Raise IndexError.

(** What a route answers: its value, or the [HTTPException] it raises for
    the framework to send. *)
Inductive Answer (A : Type) :=
| Answered (a : A)
| HTTPException (status_code : Z) (detail : string).

Arguments Answered {A} a.
Arguments HTTPException {A} status_code detail.

(** The dictionary [Database.get_report_by_id] returns. *)
Record ReportDict := {
  rd_id : string;
  rd_date : string;
  rd_article_count : Z;
  rd_file_paths : list (string * string);
  rd_article_ids : list string;
  rd_created_at : option string
}.

(** An item of [scored_articles] in [do_search]. *)
Record Scored := {
  sc_article : PubMedArticle;
  sc_score : Q;
  sc_is_new : bool
}.

(** An item of the ["articles"] list [do_search] answers. *)
Record Preview := {
  pv_pmid : string;
  pv_title : string;
  pv_journal : option string;
  pv_pub_date : string;
  pv_score : Q;
  pv_url : string
}.

(** The dictionary [do_search] answers. *)
Record SearchAnswer := {
  ans_status : string;
  ans_query : string;
  ans_total_found : Z;
  ans_new_articles : Z;
  ans_articles : list Preview
}.

(** [scored_articles.sort(key=score, reverse=True)]: the sort is stable,
    items of equal score keep their order. *)
Fixpoint insert_by_score (x : Scored) (l : list Scored) : list Scored :=
  match l with
  | [] => [x]
  | y :: rest =>
      if Qle_bool (sc_score y) (sc_score x) then x :: y :: rest
      else y :: insert_by_score x rest
  end.

Fixpoint sort_by_score (l : list Scored) : list Scored :=
  match l with
  | [] => []
  | x :: rest => insert_by_score x (sort_by_score rest)
  end.

(** The identifier SQLite gives a new row of [search_history]: one more
    than the largest there is, 1 in an empty table. *)
Definition next_history_id (l : list SearchHistory) : Z :=
  (1 + foldr Z.max 0 (sh_id <$> l))%Z.

Definition set_search_history (l : list SearchHistory) (t : Tables) : Tables :=
  {| tbl_articles := tbl_articles t; tbl_reports := tbl_reports t;
     tbl_search_history := l |}.

Section ModelMore.

Variable env : Env.

(** ** core/database.py: reports and search history *)

(** The INSERT of the pending [Report] object, inside the transaction. *)
Definition flush_report (report_id date : string) (article_ids : list string)
    (file_paths : list (string * string)) : Py unit :=
  created_at ← utcnow env;
  statement env;;
  w ← get_world;
  match tbl_reports (visible w) !! report_id with
  | Some _ => raise SQLAlchemyError
  | None =>
      let report :=
        {| rep_id := report_id; rep_date := date;
           rep_article_ids := article_ids; rep_file_paths := file_paths;
           rep_created_at := created_at;
           rep_article_count := Z.of_nat (length article_ids) |} in
      modify_world (set_session
        (Some (set_reports (<[report_id := report]> (tbl_reports (visible w))) (visible w)))
        (db_pending w))
  end.

(** [Database.save_report]: [session.add(report)] and [session.commit()],
    which inserts the report and commits. *)
Definition save_report (report_id date : string) (article_ids : list string)
    (file_paths : list (string * string)) : Py unit :=
  get_session;;
  finally
    (catch
       (flush_report report_id date article_ids file_paths;;
        commit env)
       (λ _, rollback;; mret tt))
    close.

(** [Database.get_report_by_id]: no [except], an error propagates. *)
Definition get_report_by_id (report_id : string) : Py (option ReportDict) :=
  get_session;;
  finally
    (statement env;;
     w ← get_world;
     mret ((λ report,
              {| rd_id := rep_id report;
                 rd_date := rep_date report;
                 rd_article_count := rep_article_count report;
                 rd_file_paths := rep_file_paths report;
                 rd_article_ids := rep_article_ids report;
                 rd_created_at := Some (isoformat env (rep_created_at report)) |})
           <$> tbl_reports (visible w) !! report_id))
    close.

(** The INSERT of the pending [SearchHistory] object: the database gives
    the identifier. *)
Definition flush_history (query : string) (natural_language : option string)
    (total_found new_articles : Z) : Py Z :=
  created_at ← utcnow env;
  statement env;;
  w ← get_world;
  let id := next_history_id (tbl_search_history (visible w)) in
  let history :=
    {| sh_id := id; sh_query := query; sh_natural_language := natural_language;
       sh_total_found := total_found; sh_new_articles := new_articles;
       sh_created_at := created_at |} in
  modify_world (set_session
    (Some (set_search_history (tbl_search_history (visible w) ++ [history]) (visible w)))
    (db_pending w));;
  mret id.

(** [Database.save_search_history]. The commit expires the object, so
    reading [history.id] for the [return] loads it again with one more
    statement, still inside the [try]. *)
Definition save_search_history (query : string) (natural_language : option string)
    (total_found new_articles : Z) : Py Z :=
  get_session;;
  finally
    (catch
       (id ← flush_history query natural_language total_found new_articles;
        commit env;;
        statement env;;
        mret id)
       (λ _, rollback;; mret (-1)%Z))
    close.

(** [Database.delete_search_history]. *)
Definition delete_search_history (history_id : Z) : Py bool :=
  get_session;;
  finally
    (catch
       (statement env;;
        w ← get_world;
        match list_find (λ h, sh_id h = history_id) (tbl_search_history (visible w)) with
        | Some _ =>
            statement env;;
            w' ← get_world;
            modify_world (set_session
              (Some (set_search_history
                       (filter (λ h, sh_id h ≠ history_id) (tbl_search_history (visible w')))
                       (visible w')))
              (db_pending w'));;
            commit env;;
            mret true
        | None => mret false
        end)
       (λ _, rollback;; mret false))
    close.

(** ** core/cli.py: preview_article *)

Definition preview_article (pmid : string) : Py bool :=
  articles ← fetch_articles env (py_str_list [pmid]);
  match articles with
  | [] => mret false
  | article :: _ => mret true
  end.

(** ** core/scheduler.py: JobScheduler._run_search *)

(** The loop of lines 101-105, inside the [try] of the whole job. *)
Fixpoint scheduled_loop (articles : list PubMedArticle) (new_articles : list Item)
    : Py (list Item) :=
  match articles with
  | [] => mret new_articles
  | article :: rest =>
      known ← article_exists env (pmid article);
      if (known : bool) then scheduled_loop rest new_articles
      else
        content ← generate_all env article;
        save_article env (to_dict article) 0;;
        scheduled_loop rest (new_articles ++ [(article, Some content)])
  end.

(** The job: the time is printed first, then everything runs inside one
    [try] whose [except] prints the error. *)
Definition _run_search : Py unit :=
  now env;;
  catch
    (queries ← generate_queries env (interests (config env));
     combined_query ← combine_queries queries;
     articles ← search_and_fetch env combined_query
                  (Some (search_days (pubmed (config env))))
                  (Some (max_results (pubmed (config env))));
     new_articles ← scheduled_loop articles [];
     match new_articles with
     | [] => mret tt
     | _ => create_report_call env new_articles;; mret tt
     end)
    (λ _, mret tt).

(** ** web/app.py: do_search *)

(** [s.strip()] when [s and s.strip()] holds. *)
Definition stripped (o : option string) : option string :=
  match o with
  | Some s =>
      if str_truthy s && str_truthy (str_strip env s) then Some (str_strip env s) else None
  | None => None
  end.

(** [[a for a in articles if not db.article_exists(a.pmid)]]. *)
Fixpoint filter_new (articles : list PubMedArticle) : Py (list PubMedArticle) :=
  match articles with
  | [] => mret []
  | a :: rest =>
      known ← article_exists env (pmid a);
      new_articles ← filter_new rest;
      mret (if (known : bool) then new_articles else a :: new_articles)
  end.

(** Lines 233-239: the score is a base of 50 and a bonus of 20. *)
Definition score_article (article : PubMedArticle) : Scored :=
  {| sc_article := article; sc_score := 50 + 20; sc_is_new := true |}.

Definition preview_of (a : Scored) : Preview :=
  {| pv_pmid := pmid (sc_article a);
     pv_title := title (sc_article a);
     pv_journal := journal (sc_article a);
     pv_pub_date := pub_date (sc_article a);
     pv_score := sc_score a;
     pv_url := url (sc_article a) |}.

(** Lines 221-268, once the query is chosen. *)
Definition search_with (query : string) (natural_language : option string)
    : Py (Answer SearchAnswer) :=
  let original_input :=
    match stripped natural_language with
    | Some _ => natural_language
    | None => None
    end in
  articles ← search_and_fetch env query
               (Some (search_days (pubmed (config env))))
               (Some (max_results (pubmed (config env))));
  new_articles ← filter_new articles;
  let scored_articles := sort_by_score (score_article <$> new_articles) in
  save_search_history query original_input
    (Z.of_nat (length articles)) (Z.of_nat (length new_articles));;
  mret (Answered
          {| ans_status := "success";
             ans_query := query;
             ans_total_found := Z.of_nat (length articles);
             ans_new_articles := Z.of_nat (length new_articles);
             ans_articles := preview_of <$> take 20 scored_articles |}).

(** [do_search]: the natural-language input first, then the query typed by
    hand, then the preset interest at [interest_index]. *)
Definition do_search (natural_language : option string) (interest_index : Z)
    (custom_query : option string) : Py (Answer SearchAnswer) :=
  match stripped natural_language with
  | Some text =>
      query ← generate_query env text;
      search_with query natural_language
  | None =>
      match stripped custom_query with
      | Some text => search_with text natural_language
      | None =>
          if (Z.of_nat (length (interests (config env))) <=? interest_index)%Z
          then mret (HTTPException 400 "Invalid interest index")
          else
            interest ← lift (py_index (interests (config env)) interest_index);
            query ← generate_query env interest;
            search_with query natural_language
      end
  end.

(** ** web/app.py: DELETE /api/search-history/{history_id} *)

(** The route [delete_search_history] of the web application, named apart
    from the method of [Database] it calls: the message, or the 404. *)
Definition delete_search_history_route (history_id : Z) : Py (Answer (string * string)) :=
  success ← delete_search_history history_id;
  if (success : bool) then mret (Answered ("success", "已删除"))
  else mret (HTTPException 404 "记录不存在").

End ModelMore.

(** ** Vocabulary of the further statements *)


(** The row [save_report] inserts in world [w]. *)
Definition report_row (env : Env) (w : World) (report_id date : string)
    (article_ids : list string) (file_paths : list (string * string)) : Report :=
  {| rep_id := report_id; rep_date := date;
     rep_article_ids := article_ids; rep_file_paths := file_paths;
     rep_created_at := datetime_utcnow env (clock_reads w);
     rep_article_count := Z.of_nat (length article_ids) |}.

Ltac run_db :=
  unfold save_search_history, delete_search_history, save_report, get_report_by_id,
    flush_history, flush_report, save_article, article_exists, finally, catch, commit,
    flush_one, query_article, add, statement, rollback, get_session, close, utcnow,
    modify_world, get_world, lift, raise, getitem, of_option, visible, mbind, mret,
    Py_bind, Py_ret;
  cbn -[row_of bind_text next_history_id].

Ltac db_done :=
  eexists _, _; split; [reflexivity|]; cbn -[next_history_id];
  repeat split; try done; try naive_solver.

(** The row [save_article] stores for [to_dict a]. *)
Definition row_of_article (a : PubMedArticle) (quality_score : Q)
    (fetched_at : datetime) : Article :=
  {| row_pmid := pmid a; row_title := title a; row_abstract := Some (abstract a);
     row_authors := FList (authors a); row_journal := journal a;
     row_pub_date := Some (pub_date a); row_doi := doi a;
     row_keywords := FList (keywords a); row_mesh_terms := FList (mesh_terms a);
     row_fetched_at := fetched_at; row_quality_score := quality_score |}.

(** The articles of a list that are new to a store holding the identifiers
    [stored]: an identifier met before is not new again. *)
Fixpoint new_articles_of (stored : gset string) (articles : list PubMedArticle)
    : list PubMedArticle :=
  match articles with
  | [] => []
  | a :: rest =>
      if decide (pmid a ∈ stored) then new_articles_of stored rest
      else a :: new_articles_of ({[pmid a]} ∪ stored) rest
  end.

(** The four requests [generate_all] makes for an article. *)
Definition content_requests (env : Env) (article : PubMedArticle) : list ChatRequest :=
  (λ v, variant_request env v article) <$> variants.

(** An item carries the four texts. *)
Definition full_item (item : Item) : Prop :=
  ∃ content, item.2 = Some content ∧ dom content = list_to_set (variant_key <$> variants).

(** No row stored in [w] is removed or changed in [w']. *)
Definition rows_kept (w w' : World) : Prop :=
  ∀ p row, tbl_articles (db w) !! p = Some row → tbl_articles (db w') !! p = Some row.

(** The article of an item is stored in [w], with the score 0 the loop gives. *)
Definition stored_item (w : World) (item : Item) : Prop :=
  ∃ fetched_at,
    tbl_articles (db w) !! pmid item.1 = Some (row_of_article item.1 0 fetched_at).


(** The input [do_search] files in the history: the natural-language text
    as typed, when it is not blank. *)
Definition original_input (env : Env) (natural_language : option string) : option string :=
  match stripped env natural_language with
  | Some _ => natural_language
  | None => None
  end.


(** What every record of the client satisfies: identifier and title are
    not empty, there are at most ten authors, and no keyword or MeSH term
    is empty. *)
Definition well_formed (a : PubMedArticle) : Prop :=
  str_truthy (pmid a) = true ∧ str_truthy (title a) = true
  ∧ length (authors a) ≤ 10
  ∧ Forall (λ s, str_truthy s = true) (keywords a)
  ∧ Forall (λ s, str_truthy s = true) (mesh_terms a).

(** [w'] is [w] with further requests logged and nothing else changed. *)
Definition only_requests (w w' : World) : Prop :=
  ∃ urls, w' = set_http_log (http_log w ++ urls) w.

(** * Properties *)

(** ** Batches *)

Lemma ceil_small n : n ≤ 100 → 0 < n → (n + 99) / 100 = 1.
Proof. intros. symmetry. apply Nat.div_unique with (r := n - 1); lia. Qed.

Lemma ceil_step n : 0 < n → (n + 99) / 100 = S ((n - 100 + 99) / 100).
Proof.
  intros Hn. destruct (le_lt_dec n 100).
  - rewrite ceil_small by lia. replace (n - 100) with 0 by lia. reflexivity.
  - replace (n + 99) with ((n - 100 + 99) + 1 * 100) by lia.
    rewrite Nat.div_add by lia. lia.
Qed.

Lemma ceil_bounds n : n ≤ 100 * ((n + 99) / 100) ∧ 100 * ((n + 99) / 100) < n + 100.
Proof.
  pose proof (Nat.div_mod_eq (n + 99) 100) as Hd.
  pose proof (Nat.mod_upper_bound (n + 99) 100). lia.
Qed.

Lemma range_fuel_spec fuel : ∀ i stop,
  stop - i ≤ fuel →
  range_fuel fuel i stop 100 = (λ j, i + 100 * j) <$> seq 0 ((stop - i + 99) / 100).
Proof.
  induction fuel as [|f IH]; intros i stop Hf; cbn [range_fuel].
  - replace (stop - i) with 0 by lia. reflexivity.
  - destruct (Nat.ltb_spec i stop) as [Hlt|Hge].
    + rewrite IH by lia.
      rewrite (ceil_step (stop - i)) by lia.
      replace (stop - (i + 100)) with (stop - i - 100) by lia.
      cbn [seq fmap list_fmap]. f_equal; [lia|].
      rewrite <- fmap_S_seq, <- list_fmap_compose. apply list_fmap_ext.
      intros ? j _. simpl. lia.
    + replace (stop - i) with 0 by lia. reflexivity.
Qed.

Lemma py_range_spec n :
  py_range 0 n 100 = (λ j, 100 * j) <$> seq 0 ((n + 99) / 100).
Proof.
  unfold py_range. rewrite range_fuel_spec by lia.
  rewrite Nat.sub_0_r. reflexivity.
Qed.

Lemma batches_concat (ids : list string) : ∀ m,
  concat ((λ j, take 100 (drop (100 * j) ids)) <$> seq 0 m) = take (100 * m) ids.
Proof.
  induction m as [|m IH]; [by rewrite Nat.mul_0_r|].
  rewrite seq_S, fmap_app, concat_app, IH. cbn [fmap list_fmap concat].
  rewrite app_nil_r, Nat.add_0_l, take_take_drop. f_equal. lia.
Qed.

(** ** The batch loop on a list of identifiers *)

Lemma str_items_strs l : str_items (PyStr <$> l) = Ok l.
Proof. induction l as [|s l IH]; [done|]. cbn. cbn in IH. by rewrite IH. Qed.

Lemma py_join_strs sep l : py_join sep (py_str_list l) = Ok (str_join sep l).
Proof. unfold py_join, py_str_list. by rewrite str_items_strs. Qed.

Lemma py_slice_strs ids i :
  py_slice (py_str_list ids) i (i + 100) = Ok (py_str_list (take 100 (drop i ids))).
Proof.
  unfold py_slice, py_str_list. replace (i + 100 - i) with 100 by lia.
  by rewrite fmap_take, fmap_drop.
Qed.

Lemma set_http_log_twice l l' w : set_http_log l (set_http_log l' w) = set_http_log l w.
Proof. reflexivity. Qed.

Lemma set_http_log_same w : set_http_log (http_log w) w = w.
Proof. by destruct w. Qed.

Lemma fetch_batch_strs env ids i w :
  fetch_batch env (py_str_list ids) i w =
  (batch_doc env (length (http_log w)) (batch_url env ids i),
   set_http_log (http_log w ++ [batch_url env ids i]) w).
Proof.
  unfold fetch_batch, batch_doc, batch_url, mbind, Py_bind, result_bind, lift, _make_request.
  rewrite py_slice_strs, py_join_strs.
  by destruct (http_get env _ _).
Qed.

(** The loop runs through the documents it obtains and stops at the first
    batch that fails; [docs] are the documents obtained. *)
Lemma fetch_loop_run env ids : ∀ starts docs acc w,
  length docs ≤ length starts →
  (∀ j root, docs !! j = Some root →
     ∃ i, starts !! j = Some i ∧
          batch_doc env (length (http_log w) + j) (batch_url env ids i) = Ok root) →
  (length docs < length starts →
     ∃ i, starts !! length docs = Some i ∧
          is_ok (batch_doc env (length (http_log w) + length docs) (batch_url env ids i)) = false) →
  fetch_loop env (py_str_list ids) starts acc w =
  (Ok (acc ++ concat (parse_batch <$> docs)),
   set_http_log (http_log w ++ take (S (length docs)) (batch_url env ids <$> starts)) w).
Proof.
  induction starts as [|i rest IH]; intros docs acc w Hlen Hdocs Hfail.
  - destruct docs; [|simpl in Hlen; lia]. cbn.
    by rewrite !app_nil_r, set_http_log_same.
  - cbn [fetch_loop]. unfold mbind at 1, Py_bind, attempt.
    rewrite fetch_batch_strs.
    destruct docs as [|root docs].
    + destruct Hfail as (i' & Hi' & Hbad); [simpl; lia|].
      simpl in Hi'. injection Hi' as <-. rewrite Nat.add_0_r in Hbad.
      destruct (batch_doc env _ _); [discriminate|].
      cbn. by rewrite app_nil_r.
    + destruct (Hdocs 0 root eq_refl) as (i' & Hi' & Hok).
      simpl in Hi'. injection Hi' as <-. rewrite Nat.add_0_r in Hok. rewrite Hok.
      rewrite (IH docs); cbn [http_log set_http_log].
      * rewrite set_http_log_twice. cbn [fmap list_fmap concat length take].
        by rewrite <- !app_assoc.
      * simpl in Hlen. lia.
      * intros j r Hj. destruct (Hdocs (S j) r Hj) as (i' & Hi' & Hr).
        exists i'. split; [done|]. rewrite length_app. simpl.
        by replace (length (http_log w) + 1 + j) with (length (http_log w) + S j) by lia.
      * intros Hlt. destruct Hfail as (i' & Hi' & Hbad); [simpl; lia|].
        exists i'. split; [done|]. rewrite length_app. simpl.
        by replace (length (http_log w) + 1 + length docs)
          with (length (http_log w) + S (length docs)) by lia.
Qed.

Lemma fetch_articles_run env ids docs w :
  let n := (length ids + 99) / 100 in
  let k0 := length (http_log w) in
  length docs ≤ n →
  (∀ j root, docs !! j = Some root →
     batch_doc env (k0 + j) (batch_url env ids (100 * j)) = Ok root) →
  (length docs < n →
     is_ok (batch_doc env (k0 + length docs) (batch_url env ids (100 * length docs))) = false) →
  fetch_articles env (py_str_list ids) w =
  (Ok (concat (parse_batch <$> docs)),
   set_http_log (http_log w ++
     ((λ j, batch_url env ids (100 * j)) <$> seq 0 (S (length docs) `min` n))) w).
Proof.
  intros n k0 Hlen Hdocs Hfail. unfold fetch_articles.
  destruct (decide (ids = [])) as [->|Hne].
  - cbn. destruct docs; [|simpl in Hlen; subst n; simpl in Hlen; lia].
    cbn. by rewrite app_nil_r, set_http_log_same.
  - assert (py_truthy (py_str_list ids) = true) as -> by (by destruct ids).
    cbn [negb]. unfold py_len, py_str_list at 1. rewrite length_fmap.
    fold (py_str_list ids). rewrite py_range_spec. fold n.
    rewrite (fetch_loop_run env ids _ docs).
    + cbn [app]. by rewrite <- list_fmap_compose, <- fmap_take, take_seq.
    + by rewrite length_fmap, length_seq.
    + intros j root Hj. exists (100 * j). split; [|by apply Hdocs].
      apply lookup_lt_Some in Hj as Hlt.
      rewrite list_lookup_fmap, lookup_seq_lt by lia. done.
    + rewrite length_fmap, length_seq. intros Hlt. exists (100 * length docs).
      split; [|by apply Hfail].
      rewrite list_lookup_fmap, lookup_seq_lt by lia. done.
Qed.

Lemma docs_lookup (doc : nat → Element) k j root :
  (doc <$> seq 0 k) !! j = Some root → j < k ∧ root = doc j.
Proof.
  intros Hj. apply lookup_lt_Some in Hj as Hlt.
  rewrite length_fmap, length_seq in Hlt.
  rewrite list_lookup_fmap, lookup_seq_lt in Hj by done.
  by injection Hj as <-.
Qed.

Lemma batch_doc_ok env k url body root :
  http_get env k url = Ok body → ET_fromstring env body = Ok root →
  batch_doc env k url = Ok root.
Proof. unfold batch_doc. by intros -> <-. Qed.

(** C6. When every detail request succeeds and its body parses,
    [fetch_articles] on a list of identifiers issues exactly
    ceil(len/100) detail requests, the j-th for the identifiers
    [100j, 100j+100): consecutive batches of at most 100 whose concatenation
    is the list. It returns the records of the documents, and changes nothing
    but the request log. An empty list issues no request. *)
Theorem fetch_articles_request_count env (ids : list string) (doc : nat → Element) w :
  let n := (length ids + 99) / 100 in
  let batch j := take 100 (drop (100 * j) ids) in
  let request j := efetch_url env (str_join "," (batch j)) in
  (∀ j, j < n →
     ∃ body, http_get env (length (http_log w) + j) (request j) = Ok body ∧
             ET_fromstring env body = Ok (doc j)) →
  fetch_articles env (py_str_list ids) w =
    (Ok (concat (parse_batch ∘ doc <$> seq 0 n)),
     set_http_log (http_log w ++ (request <$> seq 0 n)) w)
  ∧ concat (batch <$> seq 0 n) = ids
  ∧ (∀ j, length (batch j) ≤ 100)
  ∧ length ids ≤ 100 * n ∧ 100 * n < length ids + 100.
Proof.
  intros n batch request Hall.
  pose proof (ceil_bounds (length ids)) as [Hlo Hhi]. fold n in Hlo, Hhi.
  split; [|split; [|split; [|done]]].
  - rewrite (fetch_articles_run env ids (doc <$> seq 0 n)).
    + rewrite length_fmap, length_seq. fold n.
      replace (S n `min` n) with n by lia.
      by rewrite list_fmap_compose.
    + by rewrite length_fmap, length_seq.
    + intros j root [Hj ->]%docs_lookup.
      destruct (Hall j Hj) as (body & Hb & Hr). by eapply batch_doc_ok.
    + rewrite length_fmap, length_seq. fold n. lia.
  - unfold batch. rewrite batches_concat. by apply take_ge.
  - intros j. unfold batch. rewrite length_take. lia.
Qed.

(** No identifier, no request: the world is untouched. *)
Example fetch_articles_empty env w :
  fetch_articles env (py_str_list []) w = (Ok [], w).
Proof. reflexivity. Qed.

(** Two hundred and fifty identifiers are fetched with three requests. *)
Lemma fetch_articles_request_count_witness :
  length (http_log (fetch_articles env_ok (py_str_list ids_250) world0).2) = 3.
Proof.
  destruct (fetch_articles_request_count env_ok ids_250 (λ _, sample_root) world0)
    as [Hrun _].
  - intros j _. exists "body". split; reflexivity.
  - rewrite Hrun. vm_compute. reflexivity.
Defined.

(** C10. When the batches before the k-th are fetched and parsed and the
    k-th fails, in transport or in parsing, [fetch_articles] raises nothing
    and returns exactly the records of the documents of the batches before
    it; the log holds the k requests that succeeded and the one that failed,
    and no request of a later batch. *)
Theorem fetch_articles_partial env (ids : list string) (doc : nat → Element) w k e :
  let n := (length ids + 99) / 100 in
  let request j := efetch_url env (str_join "," (take 100 (drop (100 * j) ids))) in
  k < n →
  (∀ j, j < k →
     ∃ body, http_get env (length (http_log w) + j) (request j) = Ok body ∧
             ET_fromstring env body = Ok (doc j)) →
  (http_get env (length (http_log w) + k) (request k) = Raise e ∨
   ∃ body, http_get env (length (http_log w) + k) (request k) = Ok body ∧
           ET_fromstring env body = Raise e) →
  fetch_articles env (py_str_list ids) w =
    (Ok (concat (parse_batch ∘ doc <$> seq 0 k)),
     set_http_log (http_log w ++ (request <$> seq 0 (S k))) w).
Proof.
  intros n request Hk Hbefore Hfail.
  rewrite (fetch_articles_run env ids (doc <$> seq 0 k)).
  - rewrite length_fmap, length_seq. fold n.
    replace (S k `min` n) with (S k) by lia.
    by rewrite list_fmap_compose.
  - rewrite length_fmap, length_seq. fold n. lia.
  - intros j root [Hj ->]%docs_lookup.
    destruct (Hbefore j Hj) as (body & Hb & Hr). by eapply batch_doc_ok.
  - rewrite length_fmap, length_seq. intros _. unfold batch_doc, batch_url.
    fold (request k).
    destruct Hfail as [->|(body & -> & Hr)]; [done|]. cbn. by rewrite Hr.
Qed.

(** Of three batches the second fails: the record of the first is
    returned, two requests were made. *)
Lemma fetch_articles_partial_witness :
  (fetch_articles (sample_env http_second_fails chat_ok db_ok)
                  (py_str_list ids_250) world0).1 = Ok [article_101]
  ∧ length (http_log (fetch_articles (sample_env http_second_fails chat_ok db_ok)
                                     (py_str_list ids_250) world0).2) = 2.
Proof.
  rewrite (fetch_articles_partial (sample_env http_second_fails chat_ok db_ok)
             ids_250 (λ _, sample_root) world0 1 HTTPError).
  - split; vm_compute; reflexivity.
  - vm_compute. lia.
  - intros j Hj. assert (j = 0) as -> by lia. exists "body". split; reflexivity.
  - left. reflexivity.
Defined.

(** A body that does not parse ends the loop like a transport failure:
    of three batches only the first is requested. *)
Example fetch_articles_malformed_first :
  (fetch_articles (sample_env http_html chat_ok db_ok) (py_str_list ids_250) world0).1 = Ok []
  ∧ length (http_log (fetch_articles (sample_env http_html chat_ok db_ok)
                                     (py_str_list ids_250) world0).2) = 1.
Proof. split; vm_compute; reflexivity. Qed.

(** ** Records kept and dropped *)

Lemma pub_date_of_ok node : is_ok (pub_date_of node) = date_parts_have_text node.
Proof.
  unfold pub_date_of, date_parts_have_text, part_has_text.
  destruct (find_desc node "PubDate") as [d|]; [|done].
  destruct (find_child d "Year") as [y|]; [destruct (text y)|];
  (destruct (find_child d "Month") as [m|]; [destruct (text m)|]);
  (destruct (find_child d "Day") as [x|]; [destruct (text x)|]); done.
Qed.

(** The extraction of a node raises exactly when its publication date gives
    a [Year], [Month] or [Day] element without text. *)
Lemma extraction_ok_dated node : extraction_ok node = date_parts_have_text node.
Proof.
  rewrite <- pub_date_of_ok. unfold extraction_ok, parse_article.
  destruct (pub_date_of node); [|done].
  by destruct (opt_truthy (node_pmid node) && opt_truthy (node_title node)).
Qed.

Lemma parse_article_kept node :
  yields_id_and_title node && extraction_ok node = true →
  ∃ a, record_of node a.
Proof.
  rewrite extraction_ok_dated, <- pub_date_of_ok.
  unfold yields_id_and_title, record_of, parse_article.
  intros [[Hp Ht]%andb_prop Hd]%andb_prop.
  destruct (pub_date_of node) as [d|]; [|done].
  rewrite Hp, Ht. cbn [andb]. eexists. split; [done|]. cbn.
  destruct (node_pmid node), (node_title node); done.
Qed.

Lemma parse_article_dropped node :
  yields_id_and_title node && extraction_ok node = false →
  parse_article node = Ok None ∨ ∃ e, parse_article node = Raise e.
Proof.
  rewrite extraction_ok_dated, <- pub_date_of_ok.
  unfold yields_id_and_title, parse_article.
  destruct (pub_date_of node) as [d|e]; [|by eauto].
  rewrite andb_true_r. intros ->. by left.
Qed.

Lemma parse_batch_kept root :
  Forall2 (λ a node, record_of node a) (parse_batch root) (kept root).
Proof.
  unfold parse_batch, kept.
  induction (findall_desc root "PubmedArticle") as [|node l IH]; [constructor|].
  cbn [omap list_omap]. rewrite filter_cons.
  destruct (yields_id_and_title node && extraction_ok node) eqn:Hk.
  - destruct (parse_article_kept node Hk) as (a & Ha).
    rewrite decide_True by done. destruct Ha as (Ha & Hp & Ht). rewrite Ha.
    constructor; [done|apply IH].
  - rewrite decide_False by done.
    destruct (parse_article_dropped node Hk) as [->|(e & ->)]; apply IH.
Qed.

(** C5, as amended. When every batch is fetched and parsed, the output of
    [fetch_articles] holds, in document order, one record for each article
    node that yields a non-empty identifier and a non-empty title and whose
    extraction raises nothing, and no other record: a node missing the
    identifier or the title never appears, and a node whose extraction
    raises is skipped. *)
Theorem fetch_articles_keeps_complete env (ids : list string) (doc : nat → Element) w :
  let n := (length ids + 99) / 100 in
  let request j := efetch_url env (str_join "," (take 100 (drop (100 * j) ids))) in
  (∀ j, j < n →
     ∃ body, http_get env (length (http_log w) + j) (request j) = Ok body ∧
             ET_fromstring env body = Ok (doc j)) →
  ∃ out w', fetch_articles env (py_str_list ids) w = (Ok out, w') ∧
    Forall2 (λ a node, record_of node a) out (concat (kept ∘ doc <$> seq 0 n)).
Proof.
  intros n request Hall.
  rewrite (fetch_articles_run env ids (doc <$> seq 0 n)).
  - eexists _, _. split; [done|].
    rewrite <- list_fmap_compose.
    induction (seq 0 n) as [|j l IH]; [constructor|].
    cbn. apply Forall2_app; [apply parse_batch_kept|apply IH].
  - by rewrite length_fmap, length_seq.
  - intros j root [Hj ->]%docs_lookup.
    destruct (Hall j Hj) as (body & Hb & Hr). by eapply batch_doc_ok.
  - rewrite length_fmap, length_seq. fold n. lia.
Qed.

(** Of the three nodes of the sample document only the first is kept. *)
Lemma fetch_articles_keeps_complete_witness :
  ∃ out w',
    fetch_articles env_ok (py_str_list ["101"; "102"; "103"]) world0 = (Ok out, w') ∧
    Forall2 (λ a node, record_of node a) out [dated_node].
Proof.
  destruct (fetch_articles_keeps_complete env_ok ["101"; "102"; "103"]
              (λ _, sample_root) world0) as (out & w' & Hrun & Hrec).
  - intros j _. exists "body". split; reflexivity.
  - exists out, w'. split; [exact Hrun|]. vm_compute in Hrec. exact Hrec.
Defined.

(** C5, as stated, fails: the second node of the sample document yields the
    identifier 102 and a title, both non-empty, and no record of it is in
    the output: its [Year] element has no text, joining the date parts
    raises, and the node is skipped. *)
Lemma dropped_record_counterexample :
  findall_desc sample_root "PubmedArticle" = [dated_node; undated_node; untitled_node]
  ∧ node_pmid undated_node = Some "102"
  ∧ node_title undated_node = Some "A language model for triage"
  ∧ parse_article undated_node = Raise TypeError
  ∧ (fetch_articles env_ok (py_str_list ["101"; "102"; "103"]) world0).1 = Ok [article_101].
Proof. repeat apply conj; vm_compute; reflexivity. Qed.

(** ** The search request *)

(** C8. When the date window is computed and the id-search request fails in
    transport (an HTTP error, a status that [raise_for_status] refuses),
    or its body is not JSON, or the JSON has not the shape of an answer,
    [search] returns the empty list and raises nothing; the request is
    logged and the clock was read, nothing else changes. *)
Theorem search_failure_empty env query days max w delta start_date e :
  let end_date := datetime_now env (clock_reads w) in
  let url :=
    esearch_url env
      ("(" +:+ query +:+ ") AND " +:+ strftime env start_date "%Y/%m/%d" +:+ ":" +:+
       strftime env end_date "%Y/%m/%d" +:+ "[PDAT]") max in
  timedelta days = Ok delta →
  datetime_sub end_date delta = Ok start_date →
  (http_get env (length (http_log w)) url = Raise e ∨
   ∃ body, http_get env (length (http_log w)) url = Ok body ∧
           (json_loads env body = Raise e ∨
            ∃ data, json_loads env body = Ok data ∧
                    (py_get data "esearchresult" (PyDict []) ≫=
                       λ r, py_get r "idlist" (PyList [])) = Raise e)) →
  search env query days max w =
    (Ok (PyList []),
     set_http_log (http_log w ++ [url]) (set_clock_reads (S (clock_reads w)) w)).
Proof.
  intros end_date url Hdelta Hstart Hfail.
  unfold search, mbind, Py_bind, now, lift, catch, _make_request.
  rewrite Hdelta. fold end_date. rewrite Hstart. cbn. fold end_date. fold url.
  destruct Hfail as [->|(body & -> & [->|(data & -> & Hshape)])]; [done|done|].
  cbn. unfold mbind, result_bind in Hshape.
  destruct (py_get data "esearchresult" (PyDict [])) as [r|]; [|done].
  by rewrite Hshape.
Qed.

(** The source is unreachable: no identifier, no exception. *)
Lemma search_failure_empty_witness :
  (search (sample_env http_down chat_ok db_ok) "cancer" 7 100 world0).1 = Ok (PyList []).
Proof.
  rewrite (search_failure_empty (sample_env http_down chat_ok db_ok) "cancer" 7 100 world0
             7 {| dt_ordinal := 738993; dt_microsecond := 0 |} HTTPError).
  - reflexivity.
  - reflexivity.
  - reflexivity.
  - left. reflexivity.
Defined.

(** A body that is not JSON gives the empty list as well. *)
Example search_malformed_json :
  (search (sample_env http_html chat_ok db_ok) "cancer" 7 100 world0).1 = Ok (PyList []).
Proof. vm_compute. reflexivity. Qed.

(** The date window is computed before the [try]: a window that leaves the
    calendar raises before any request is made. *)
Example search_window_overflow :
  search env_ok "cancer" 800000 100 world0 =
    (Raise OverflowError, set_clock_reads 1 world0).
Proof. vm_compute. reflexivity. Qed.

(** ** Model calls and their fallbacks *)

Lemma try_create env req fb w :
  catch (response ← create env req; lift (first_content env response)) (λ _, mret fb) w =
  (Ok (or_else (llm_call env (length (llm_log w)) req) fb),
   set_llm_log (llm_log w ++ [req]) w).
Proof.
  unfold catch, mbind, Py_bind, create, lift, llm_call, mret, Py_ret.
  destruct (chat_completions_create env _ req) as [resp|e]; [|done].
  cbn. by destruct (first_content env resp).
Qed.

Lemma generate_run env v article w :
  generate v env article w =
  (Ok (or_else (llm_call env (length (llm_log w)) (variant_request env v article))
               (fallback v article)),
   set_llm_log (llm_log w ++ [variant_request env v article]) w).
Proof. destruct v; apply try_create. Qed.

Lemma set_llm_log_twice l l' w : set_llm_log l (set_llm_log l' w) = set_llm_log l w.
Proof. reflexivity. Qed.

Lemma generate_query_run env interest w :
  generate_query env interest w =
  (Ok (or_else (llm_call env (length (llm_log w)) (query_request env interest))
               ("(" +:+ interest +:+ ")[Title/Abstract]")),
   set_llm_log (llm_log w ++ [query_request env interest]) w).
Proof. apply try_create. Qed.

Lemma generate_queries_run env : ∀ topics w,
  ∃ queries, generate_queries env topics w =
    (Ok queries, set_llm_log (llm_log w ++ (query_request env <$> topics)) w).
Proof.
  induction topics as [|i rest IH]; intros w; cbn [generate_queries].
  - eexists. cbn. rewrite app_nil_r. by destruct w.
  - unfold mbind, Py_bind. rewrite generate_query_run.
    destruct (IH (set_llm_log (llm_log w ++ [query_request env i]) w)) as (qs & ->).
    eexists. cbn. by rewrite <- app_assoc.
Qed.

Lemma combine_queries_run queries w : ∃ q, combine_queries queries w = (Ok q, w).
Proof. unfold combine_queries. destruct queries as [|? [|]]; by eexists. Qed.

(** C7. When the model call of [generate_query] fails (the call raises,
    the response has no choice, or its content is [None]), the function
    returns the interest wrapped in the title/abstract filter and raises
    nothing; the call is logged, nothing else changes. *)
Theorem generate_query_fallback env interest w e :
  llm_call env (length (llm_log w)) (query_request env interest) = Raise e →
  generate_query env interest w =
    (Ok ("(" +:+ interest +:+ ")[Title/Abstract]"),
     set_llm_log (llm_log w ++ [query_request env interest]) w).
Proof. intros Hfail. by rewrite generate_query_run, Hfail. Qed.

(** The model is unreachable: the raw interest is wrapped. *)
Lemma generate_query_fallback_witness :
  (generate_query (sample_env http_ok chat_down db_ok) "糖尿病治疗" world0).1 =
    Ok "(糖尿病治疗)[Title/Abstract]".
Proof.
  rewrite (generate_query_fallback (sample_env http_ok chat_down db_ok)
             "糖尿病治疗" world0 APIError).
  - reflexivity.
  - reflexivity.
Defined.

(** C2. [generate_all] never raises. It makes the four calls in order,
    whatever their outcomes, and returns a mapping whose keys are exactly
    the four variant keys; the text of a variant is the stripped answer of
    its own call, or its fallback template on the article when that call
    failed. The text of a variant depends on no other call. *)
Theorem generate_all_variants env article w :
  ∃ content,
    generate_all env article w =
      (Ok content,
       set_llm_log (llm_log w ++ ((λ v, variant_request env v article) <$> variants)) w)
    ∧ dom content = list_to_set (variant_key <$> variants)
    ∧ ∀ v, content !! variant_key v =
           Some (or_else (llm_call env (length (llm_log w) + variant_index v)
                                   (variant_request env v article))
                         (fallback v article)).
Proof.
  eexists. split; [|split].
  - unfold generate_all, mbind, Py_bind.
    rewrite (generate_run env xiaohongshu_long).
    rewrite (generate_run env xiaohongshu_short).
    rewrite (generate_run env wechat_long).
    rewrite (generate_run env wechat_short).
    cbn [llm_log set_llm_log]. rewrite !set_llm_log_twice, !length_app.
    cbn [length]. rewrite <- !app_assoc. reflexivity.
  - rewrite !list_to_map_cons, list_to_map_nil, !dom_insert_L, dom_empty_L. cbn. set_solver.
  - intros v. rewrite !list_to_map_cons, list_to_map_nil.
    destruct v; cbn [variant_key variant_index]; simplify_map_eq;
      do 3 f_equal; lia.
Qed.

(** Only the second call fails: only the second variant is the template. *)
Example generate_all_second_fails :
  (generate_all (sample_env http_ok chat_second_fails db_ok) article_101 world0).1 =
    Ok (list_to_map
          [("xiaohongshu_long", "generated text");
           ("xiaohongshu_short", _fallback_xiaohongshu_short article_101);
           ("wechat_long", "generated text");
           ("wechat_short", "generated text")]).
Proof. vm_compute. reflexivity. Qed.

Example fallback_xiaohongshu_short_text :
  _fallback_xiaohongshu_short article_101 =
"📢 Deep learning for tumour detection...

期刊：Nature Medicine

🔬 用LLM技术解决医学问题
📊 实验数据看起来不错
⚡ 值得关注的新方向

原文→ https://pubmed.ncbi.nlm.nih.gov/101/

#LLM #医疗AI".
Proof. vm_compute. reflexivity. Qed.

(** C9. When the call of a variant fails, the text is the fallback template
    of the variant on the article: two failed attempts, in whatever
    environments and worlds, give the same text, and the template reads
    nothing but fields of the article. *)
Theorem fallback_deterministic env1 env2 v article w1 w2 e1 e2 :
  llm_call env1 (length (llm_log w1)) (variant_request env1 v article) = Raise e1 →
  llm_call env2 (length (llm_log w2)) (variant_request env2 v article) = Raise e2 →
  (generate v env1 article w1).1 = Ok (fallback v article) ∧
  (generate v env2 article w2).1 = (generate v env1 article w1).1 ∧
  ∀ other, same_template_fields article other → fallback v other = fallback v article.
Proof.
  intros H1 H2. rewrite !generate_run, H1, H2. split; [done|split; [done|]].
  intros other (Hp & Ht & Ha & Hj & Hd & Hk).
  destruct v; cbn [fallback]; unfold _fallback_xiaohongshu_long, _fallback_xiaohongshu_short,
    _fallback_wechat_long, _fallback_wechat_short, url;
    by rewrite ?Hp, ?Ht, ?Ha, ?Hj, ?Hd, ?Hk.
Qed.

(** A failure against a dead endpoint and a failure of the second call of
    another run give the same long-read text. *)
Lemma fallback_deterministic_witness :
  (generate wechat_long (sample_env http_ok chat_second_fails db_ok) article_101
            (set_llm_log [query_request env_ok "AI in cancer diagnosis"] world0)).1 =
  (generate wechat_long (sample_env http_ok chat_down db_ok) article_101 world0).1.
Proof.
  apply (fallback_deterministic (sample_env http_ok chat_down db_ok)
           (sample_env http_ok chat_second_fails db_ok) wechat_long article_101 world0
           (set_llm_log [query_request env_ok "AI in cancer diagnosis"] world0)
           APIError APIError).
  - reflexivity.
  - reflexivity.
Defined.

(** ** The article store *)

Lemma row_of_pmid obj t row : row_of obj t = Ok row → obj_pmid obj = FStr (row_pmid row).
Proof.
  unfold row_of, mbind, result_bind. intros H.
  destruct (bind_text (obj_pmid obj)) as [[p|]|] eqn:Hp; try done;
  repeat (match type of H with
          | match ?x with _ => _ end = _ => destruct x; try done
          end).
  injection H as <-. cbn. by destruct (obj_pmid obj); simplify_eq/=.
Qed.

Lemma row_of_title obj t row : row_of obj t = Ok row → obj_title obj = FStr (row_title row).
Proof.
  unfold row_of, mbind, result_bind. intros H.
  destruct (bind_text (obj_pmid obj)) as [[p|]|]; try done;
  destruct (bind_text (obj_title obj)) as [[x|]|] eqn:Hx; try done;
  repeat (match type of H with
          | match ?x with _ => _ end = _ => destruct x; try done
          end).
  injection H as <-. cbn. by destruct (obj_title obj); simplify_eq/=.
Qed.

(** C1. [save_article] never raises and leaves no session open. When it
    returns [False] the committed tables are what they were; it returns
    [False] whenever an article with the identifier is stored. When it
    returns [True] the identifier was not stored before, the tables differ
    by the one new row under it, which carries the title given, and no
    statement of the call failed: a failure of the query, of the insert or
    of the commit gives [False] with the tables unchanged. *)
Theorem save_article_outcome env data quality_score w :
  ∃ b w', save_article env data quality_score w = (Ok b, w') ∧
    db_txn w' = None ∧ db_pending w' = [] ∧
    (b = false → db w' = db w) ∧
    (b = true →
       ∃ p row, data !! "pmid" = Some (FStr p) ∧
                tbl_articles (db w) !! p = None ∧
                row_pmid row = p ∧
                data !! "title" = Some (FStr (row_title row)) ∧
                db w' = set_articles (<[p := row]> (tbl_articles (db w))) (db w) ∧
                ∀ k, db_statements w ≤ k < db_statements w' →
                     db_statement_fails env k = false) ∧
    (∀ p, data !! "pmid" = Some (FStr p) → is_Some (tbl_articles (db w) !! p) → b = false).
Proof.
  run_py.
  destruct (data !! "pmid") as [v|] eqn:Hp; cbn -[row_of bind_text]; [|finish].
  destruct (bind_text v) as [key|] eqn:Hkey; cbn -[row_of bind_text]; [|finish].
  destruct (db_statement_fails env (db_statements w)) eqn:Hq; cbn -[row_of bind_text]; [finish|].
  destruct (option_bind _ _ _ key) as [old|] eqn:Hold; cbn -[row_of bind_text]; [finish|].
  destruct (data !! "title") as [t|] eqn:Ht; run_py; [|finish].
  match goal with |- context [row_of ?o ?d] => destruct (row_of o d) as [row|] eqn:Hrow end;
    cbn -[row_of bind_text]; [|finish].
  destruct (db_statement_fails env (S (db_statements w))) eqn:Hi; cbn -[row_of bind_text]; [finish|].
  destruct (tbl_articles (db w) !! row_pmid row) as [dup|] eqn:Hdup; cbn -[row_of bind_text]; [finish|].
  destruct (db_statement_fails env (S (S (db_statements w)))) eqn:Hc; cbn -[row_of bind_text]; [finish|].
  apply row_of_pmid in Hrow as Hpm. cbn in Hpm. subst v.
  apply row_of_title in Hrow as Htt. cbn in Htt. subst t.
  eexists _, _; split; [reflexivity|]; cbn. repeat split; try done.
  - intros _. exists (row_pmid row), row. do 5 (split; [done|]).
    intros k Hk.
    assert (k = db_statements w ∨ k = S (db_statements w) ∨ k = S (S (db_statements w)))
      as [->|[->| ->]] by lia; done.
  - intros p [= <-] [x Hx]. congruence.
Qed.

(** A new article is inserted. *)
Example save_article_new :
  (save_article env_ok (to_dict article_101) 0 world0).1 = Ok true
  ∧ tbl_articles (db (save_article env_ok (to_dict article_101) 0 world0).2) !! "101"
      = Some row_101.
Proof. split; vm_compute; reflexivity. Qed.

(** A stored article is refused, the store stays. *)
Example save_article_duplicate :
  (save_article env_ok (to_dict article_101) 0 world_known).1 = Ok false
  ∧ db (save_article env_ok (to_dict article_101) 0 world_known).2 = db world_known.
Proof. split; vm_compute; reflexivity. Qed.

(** The commit fails after the insert: [False], and nothing is stored. *)
Example save_article_commit_fails :
  (save_article (sample_env http_ok chat_ok (λ k, k =? 2)) (to_dict article_101) 0 world0).1
    = Ok false
  ∧ db (save_article (sample_env http_ok chat_ok (λ k, k =? 2))
                     (to_dict article_101) 0 world0).2 = db world0.
Proof. split; vm_compute; reflexivity. Qed.

(** ** Frames of the steps of a run *)

Lemma keeps_trans w1 w2 w3 : keeps w1 w2 → keeps w2 w3 → keeps w1 w3.
Proof. unfold keeps. intros (-> & -> & ->) (-> & -> & ->). done. Qed.

Lemma fetch_batch_keeps env pmids i w :
  keeps w (fetch_batch env pmids i w).2.
Proof.
  unfold fetch_batch, mbind, Py_bind, lift, _make_request.
  destruct (py_slice pmids i (i + 100)); [|done].
  destruct (py_join "," _); [|done]. cbn.
  by destruct (http_get env _ _).
Qed.

Lemma fetch_loop_keeps env pmids : ∀ starts acc w,
  ∃ out w', fetch_loop env pmids starts acc w = (Ok out, w') ∧ keeps w w'.
Proof.
  induction starts as [|i rest IH]; intros acc w; cbn [fetch_loop].
  - by eexists _, _.
  - unfold mbind at 1, Py_bind, attempt.
    pose proof (fetch_batch_keeps env pmids i w) as Hk.
    destruct (fetch_batch env pmids i w) as [[root|e] w1]; cbn in Hk.
    + destruct (IH (acc ++ parse_batch root) w1) as (out & w' & -> & Hk').
      eexists _, _. split; [done|]. by eapply keeps_trans.
    + by eexists _, _.
Qed.

(** [fetch_articles] raises on no value at all. *)
Lemma fetch_articles_keeps env pmids w :
  ∃ out w', fetch_articles env pmids w = (Ok out, w') ∧ keeps w w'.
Proof.
  unfold fetch_articles. destruct (negb (py_truthy pmids)); [by eexists _, _|].
  destruct (py_len pmids); [apply fetch_loop_keeps|by eexists _, _].
Qed.

Lemma search_keeps env query days max w :
  ∃ r w', search env query days max w = (r, w') ∧ keeps w w'.
Proof.
  unfold search, mbind, Py_bind, now, lift, catch, _make_request. cbn.
  destruct (timedelta days); [|by eexists _, _].
  destruct (datetime_sub _ _); [|by eexists _, _].
  cbn. destruct (http_get env _ _); [|by eexists _, _].
  destruct (json_loads env _); [|by eexists _, _].
  destruct (py_get _ _ _); [|by eexists _, _].
  destruct (py_get _ _ _); by eexists _, _.
Qed.

Lemma search_and_fetch_keeps env query days max w :
  ∃ r w', search_and_fetch env query days max w = (r, w') ∧ keeps w w'.
Proof.
  unfold search_and_fetch, mbind, Py_bind.
  destruct (search_keeps env query (default (search_days (pubmed (config env))) days)
              (default (max_results (pubmed (config env))) max) w)
    as (r & w1 & -> & Hk).
  destruct r as [pmids|e]; [|by eexists _, _].
  destruct (fetch_articles_keeps env pmids w1) as (out & w' & -> & Hk').
  eexists _, _. split; [done|]. by eapply keeps_trans.
Qed.

Lemma article_exists_run env p w :
  ∃ w', article_exists env p w =
          (if db_statement_fails env (db_statements w) then Raise SQLAlchemyError
           else Ok (bool_decide (is_Some (tbl_articles (db w) !! p))), w')
        ∧ keeps w w' ∧ db_statements w' = S (db_statements w).
Proof.
  unfold article_exists, finally, query_article, statement, get_session, close,
    modify_world, get_world, lift, visible, mbind, mret, Py_bind, Py_ret.
  cbn. destruct (db_statement_fails env (db_statements w)); by eexists.
Qed.

(** What a dry run of the loop leaves alone. *)
Lemma process_articles_dry env : ∀ articles acc w,
  ∃ r w', process_articles env true articles acc w = (r, w') ∧ keeps w w'.
Proof.
  induction articles as [|a rest IH]; intros acc w; cbn [process_articles].
  - by eexists _, _.
  - unfold mbind at 1, Py_bind.
    destruct (article_exists_run env (pmid a) w) as (w1 & -> & Hk & _).
    destruct (db_statement_fails env (db_statements w)); [by eexists _, _|].
    destruct (bool_decide _).
    + destruct (IH acc w1) as (r & w' & -> & Hk').
      eexists _, _. split; [done|]. by eapply keeps_trans.
    + destruct (IH (acc ++ [(a, None)]) w1) as (r & w' & -> & Hk').
      eexists _, _. split; [done|]. by eapply keeps_trans.
Qed.

(** Articles that are all in the store yield no new article. *)
Lemma process_articles_known env dry_run : ∀ articles acc w,
  (∀ a, a ∈ articles → is_Some (tbl_articles (db w) !! pmid a)) →
  (∀ j, j < length articles → db_statement_fails env (db_statements w + j) = false) →
  ∃ w', process_articles env dry_run articles acc w = (Ok acc, w') ∧ keeps w w'.
Proof.
  induction articles as [|a rest IH]; intros acc w Hin Hdb; cbn [process_articles].
  - by eexists.
  - unfold mbind at 1, Py_bind.
    destruct (article_exists_run env (pmid a) w) as (w1 & -> & Hk & Hn).
    rewrite <- (Nat.add_0_r (db_statements w)), Hdb by (simpl; lia).
    rewrite bool_decide_true by (apply Hin; left).
    destruct (IH acc w1) as (w' & -> & Hk').
    + intros b Hb. destruct Hk as (-> & _). apply Hin. by right.
    + intros j Hj. rewrite Hn.
      replace (S (db_statements w) + j) with (db_statements w + S j) by lia.
      apply Hdb. simpl. lia.
    + eexists. split; [done|]. by eapply keeps_trans.
Qed.

(** What the summary and report assembly leave alone. *)
Lemma write_summary_frame env report items w :
  ∃ r w', write_summary env report items w = (r, w') ∧
    db w' = db w ∧ llm_log w' = llm_log w.
Proof.
  unfold write_summary, mbind, Py_bind, get_world.
  match goal with
  | |- context [open_w_ok env ?a ?b] => destruct (open_w_ok env a b)
  end; by eexists _, _.
Qed.

Lemma report_step_frame env items w :
  ∃ r w', (report ← create_report_call env items; write_summary env report items) w = (r, w') ∧
    tbl_articles (db w') = tbl_articles (db w) ∧
    tbl_search_history (db w') = tbl_search_history (db w) ∧
    llm_log w' = llm_log w.
Proof.
  unfold mbind, Py_bind, create_report_call.
  destruct (create_report env items _) as [[report|e] [reports fs]].
  - destruct (write_summary_frame env report items
      (set_files fs (set_db (set_reports reports (db w)) w))) as (r & w' & -> & Hdb & Hlog).
    eexists _, _. split; [done|]. by rewrite Hdb, Hlog.
  - by eexists _, _.
Qed.

Lemma query_request_not_content env interest v article :
  query_request env interest ≠ variant_request env v article.
Proof. destruct v; discriminate. Qed.

Lemma translate_run env topics w :
  ∃ q, (queries ← generate_queries env topics; combine_queries queries) w =
       (Ok q, set_llm_log (llm_log w ++ (query_request env <$> topics)) w).
Proof.
  destruct (generate_queries_run env topics w) as (qs & Hq).
  destruct (combine_queries_run qs
    (set_llm_log (llm_log w ++ (query_request env <$> topics)) w)) as (q & Hc).
  exists q. unfold mbind, Py_bind. by rewrite Hq, Hc.
Qed.

(** ** Runs of the pipeline *)

(** C3, as amended. In a dry run the only model calls are the query
    translations, one per selected interest, so no content-generation call
    is made; the article table is unchanged, and so is the history table:
    [run_search] records no search-history entry. *)
Theorem dry_run_effects env interest days max w :
  ∃ r w', run_search env interest days max true w = (r, w') ∧
    llm_log w' = llm_log w ++ (query_request env <$> selected_interests env interest) ∧
    (∀ v article, variant_request env v article ∉ drop (length (llm_log w)) (llm_log w')) ∧
    tbl_articles (db w') = tbl_articles (db w) ∧
    tbl_search_history (db w') = tbl_search_history (db w).
Proof.
  assert (∃ r w', run_search env interest days max true w = (r, w') ∧
    llm_log w' = llm_log w ++ (query_request env <$> selected_interests env interest) ∧
    tbl_articles (db w') = tbl_articles (db w) ∧
    tbl_search_history (db w') = tbl_search_history (db w)) as (r & w' & Hrun & Hlog & Ha & Hh).
  { unfold run_search. cbv zeta. fold (selected_interests env interest).
    destruct (translate_run env (selected_interests env interest) w) as (q & Hq).
    py_step. rewrite Hq. cbv beta iota.
    set (w1 := set_llm_log _ w).
    py_step.
    destruct (search_and_fetch_keeps env q
      (Some (default (search_days (pubmed (config env))) days))
      (Some (default (max_results (pubmed (config env))) max)) w1)
      as (r & w2 & -> & Hdb & _ & Hlog).
    destruct r as [[|a rest]|e]; try (eexists _, _; split; [reflexivity|]; by rewrite Hdb, Hlog).
    cbv beta iota. py_step.
    destruct (process_articles_dry env (a :: rest) [] w2) as (r & w3 & -> & Hdb3 & _ & Hlog3).
    destruct r as [[|item items]|e];
      try (eexists _, _; split; [reflexivity|]; by rewrite Hdb3, Hlog3, Hdb, Hlog).
    py_step.
    destruct (report_step_frame env (item :: items) w3) as (r & w4 & -> & Ha4 & Hh4 & Hlog4).
    eexists _, _. split; [reflexivity|].
    by rewrite Ha4, Hh4, Hlog4, Hdb3, Hlog3, Hdb, Hlog. }
  exists r, w'. repeat split; try done.
  intros v article. rewrite Hlog, drop_app_length.
  intros (i & Hi & _)%list_elem_of_fmap. by eapply query_request_not_content.
Qed.

(** C3, as stated, fails: a dry run that finds only a stored article
    returns [True], and a dry run that finds a new article ends as well,
    each with the history table as empty as it was; no entry is recorded. *)
Lemma dry_run_counterexample :
  tbl_search_history (db world_known) = []
  ∧ dry_run_known_sample.1 = Ok true
  ∧ tbl_search_history (db dry_run_known_sample.2) = []
  ∧ tbl_search_history (db world0) = []
  ∧ is_ok dry_run_sample.1 = true
  ∧ tbl_search_history (db dry_run_sample.2) = []
  ∧ length (llm_log dry_run_sample.2) = 1
  ∧ tbl_articles (db dry_run_sample.2) = ∅.
Proof. repeat apply conj; vm_compute; reflexivity. Qed.

(** C4, as amended. When search and fetch yield no article, or only
    articles that are already stored (the existence checks succeeding),
    [run_search] returns [True], makes no model call after the fetch, and
    leaves the tables and the files as they were: no report is produced,
    and no search-history entry is recorded. *)
Theorem no_new_articles_no_report env interest days max dry_run w articles w2 :
  (queries ← generate_queries env (selected_interests env interest);
   combined_query ← combine_queries queries;
   search_and_fetch env combined_query
     (Some (default (search_days (pubmed (config env))) days))
     (Some (default (max_results (pubmed (config env))) max))) w = (Ok articles, w2) →
  (∀ a, a ∈ articles → is_Some (tbl_articles (db w) !! pmid a)) →
  (∀ j, j < length articles → db_statement_fails env (db_statements w2 + j) = false) →
  ∃ w', run_search env interest days max dry_run w = (Ok true, w') ∧
        db w' = db w ∧ files w' = files w ∧ llm_log w' = llm_log w2.
Proof.
  intros Hfetch Hknown Hdb.
  unfold run_search. cbv zeta. fold (selected_interests env interest).
  destruct (generate_queries_run env (selected_interests env interest) w) as (qs & Hq).
  destruct (translate_run env (selected_interests env interest) w) as (q & Ht).
  py_step. rewrite Ht. cbv beta iota.
  unfold mbind at 1 2 in Hfetch. unfold Py_bind in Hfetch.
  unfold mbind, Py_bind in Ht. rewrite Hq in Hfetch, Ht.
  destruct (combine_queries qs _) as [[q'|e] w1] eqn:Hc; [|done].
  injection Ht as -> ->.
  py_step. rewrite Hfetch. cbv beta iota.
  destruct (search_and_fetch_keeps env q
    (Some (default (search_days (pubmed (config env))) days))
    (Some (default (max_results (pubmed (config env))) max))
    (set_llm_log (llm_log w ++ (query_request env <$> selected_interests env interest)) w))
    as (r' & w2' & Hsf & Hdb2 & Hf2 & Hlog2).
  rewrite Hfetch in Hsf. injection Hsf as <- <-.
  destruct articles as [|a rest]; [by eexists|].
  py_step.
  destruct (process_articles_known env dry_run (a :: rest) [] w2) as (w3 & -> & Hdb3 & Hf3 & Hlog3).
  - intros b Hb. rewrite Hdb2. by apply Hknown.
  - done.
  - eexists. split; [reflexivity|]. by rewrite Hdb3, Hf3, Hlog3, Hdb2, Hf2.
Qed.

(** The only article found is stored already: success, and the tables are
    what they were. *)
Lemma no_new_articles_no_report_witness :
  ∃ w', run_search env_ok None None None false world_known = (Ok true, w') ∧
        db w' = db world_known.
Proof.
  edestruct (no_new_articles_no_report env_ok None None None false world_known)
    as (w' & Hrun & Hdb & _).
  - reflexivity.
  - intros a Ha. vm_compute in Ha. apply list_elem_of_singleton in Ha as ->.
    vm_compute. eauto.
  - intros j _. reflexivity.
  - exists w'. split; [exact Hrun|exact Hdb].
Defined.

(** C4, as stated, fails: a run that finds nothing and a run that finds
    only a stored article both return [True] with the history table as
    empty as it was, and with no report. *)
Lemma no_new_articles_counterexample :
  empty_run_sample.1 = Ok true
  ∧ tbl_search_history (db empty_run_sample.2) = []
  ∧ tbl_reports (db empty_run_sample.2) = ∅
  ∧ known_run_sample.1 = Ok true
  ∧ tbl_search_history (db world_known) = []
  ∧ tbl_search_history (db known_run_sample.2) = []
  ∧ tbl_reports (db known_run_sample.2) = ∅.
Proof. repeat apply conj; vm_compute; reflexivity. Qed.

(** * Further properties *)

#[local] Set Warnings "-clear-no-such-hyp".

(** ** core/database.py: search history and reports *)



Lemma list_find_id_None (l : list SearchHistory) id :
  list_find (λ h, sh_id h = id) l = None ↔ Forall (λ h, sh_id h ≠ id) l.
Proof. apply list_find_None. Qed.

(** X2. [delete_search_history] never raises and leaves no session open. It answers
    [True] only when a row with that identifier was there, and then exactly the
    rows with that identifier are gone and the others are kept in order; when it
    answers [False] the tables are as they were. An unknown identifier gives
    [False]; a known one gives [True] when the three statements of the call
    succeed. *)
Theorem delete_search_history_outcome env history_id w :
  let k := db_statements w in
  let table := tbl_search_history (db w) in
  ∃ b w', delete_search_history env history_id w = (Ok b, w')
    ∧ db_txn w' = None ∧ db_pending w' = []
    ∧ (b = true →
       Exists (λ h, sh_id h = history_id) table ∧
       db w' = set_search_history (filter (λ h, sh_id h ≠ history_id) table) (db w))
    ∧ (b = false → db w' = db w)
    ∧ (Forall (λ h, sh_id h ≠ history_id) table → b = false)
    ∧ (Exists (λ h, sh_id h = history_id) table →
       db_statement_fails env k = false → db_statement_fails env (S k) = false →
       db_statement_fails env (S (S k)) = false → b = true).
Proof.
  intros k table. subst k table. run_db.
  destruct (db_statement_fails env (db_statements w)) eqn:H1; cbn; [db_done|].
  destruct (list_find _ (tbl_search_history (db w))) as [[i h]|] eqn:Hfind; cbn.
  - apply list_find_Some in Hfind as (Hi & Hh & _).
    assert (Exists (λ h, sh_id h = history_id) (tbl_search_history (db w))) as Hex.
    { apply Exists_exists. exists h. split; [|done]. by eapply list_elem_of_lookup_2. }
    assert (¬ Forall (λ h, sh_id h ≠ history_id) (tbl_search_history (db w))) as Hnall.
    { intros Hall. rewrite Forall_forall in Hall. apply (Hall h); [|done].
      by eapply list_elem_of_lookup_2. }
    destruct (db_statement_fails env (S (db_statements w))) eqn:H2; cbn; [db_done|].
    destruct (db_statement_fails env (S (S (db_statements w)))) eqn:H3; cbn; db_done.
  - apply list_find_id_None in Hfind.
    assert (¬ Exists (λ h, sh_id h = history_id) (tbl_search_history (db w))) as Hnex.
    { rewrite Exists_exists. intros (h & Hin & Hh). rewrite Forall_forall in Hfind.
      by apply (Hfind h). }
    db_done.
Qed.




(** X4. [save_report] returns [None] and never raises, and leaves no session open.
    The tables are either as they were or hold one more report, under an
    identifier that was free, with the date, the identifiers and the paths given
    and with the number of identifiers as its article count. An identifier
    already stored, or a failing insert or commit, leaves the tables as they
    were: the stored report is not overwritten, and the caller is not told. A
    free identifier with insert and commit succeeding stores the report. *)
Theorem save_report_outcome env report_id date article_ids file_paths w :
  let row := report_row env w report_id date article_ids file_paths in
  let k := db_statements w in
  let inserted := set_reports (<[report_id := row]> (tbl_reports (db w))) (db w) in
  ∃ w', save_report env report_id date article_ids file_paths w = (Ok tt, w')
    ∧ db_txn w' = None ∧ db_pending w' = []
    ∧ (db w' = db w ∨ (tbl_reports (db w) !! report_id = None ∧ db w' = inserted))
    ∧ (is_Some (tbl_reports (db w) !! report_id) → db w' = db w)
    ∧ (db_statement_fails env k = true ∨ db_statement_fails env (S k) = true → db w' = db w)
    ∧ (tbl_reports (db w) !! report_id = None →
       db_statement_fails env k = false → db_statement_fails env (S k) = false →
       db w' = inserted).
Proof.
  intros row k inserted. subst row k inserted. unfold report_row. run_db.
  destruct (db_statement_fails env (db_statements w)) eqn:H1; cbn.
  { eexists. split; [reflexivity|]. cbn. repeat split; try done; naive_solver. }
  destruct (tbl_reports (db w) !! report_id) as [old|] eqn:Hold; cbn.
  { eexists. split; [reflexivity|]. cbn. repeat split; try done; naive_solver. }
  destruct (db_statement_fails env (S (db_statements w))) eqn:H2; cbn.
  { eexists. split; [reflexivity|]. cbn. repeat split; try done; naive_solver. }
  eexists. split; [reflexivity|]. cbn. repeat split; try done; naive_solver.
Qed.

(** X5. A report saved under a free identifier is what [get_report_by_id] answers
    for that identifier afterwards, the database answering the three statements:
    the same date, identifiers and paths, the number of identifiers as article
    count, and the time of the save in ISO format; reading changes nothing. *)
Theorem report_save_get_round_trip env report_id date article_ids file_paths w :
  tbl_reports (db w) !! report_id = None →
  (∀ j, j < 3 → db_statement_fails env (db_statements w + j) = false) →
  ∃ w1 w2,
    save_report env report_id date article_ids file_paths w = (Ok tt, w1)
    ∧ get_report_by_id env report_id w1 =
        (Ok (Some {| rd_id := report_id;
                     rd_date := date;
                     rd_article_count := Z.of_nat (length article_ids);
                     rd_file_paths := file_paths;
                     rd_article_ids := article_ids;
                     rd_created_at :=
                       Some (isoformat env (datetime_utcnow env (clock_reads w))) |}),
         w2)
    ∧ db w2 = db w1.
Proof.
  intros Hnew Hok.
  pose proof (Hok 0 ltac:(lia)) as H0. pose proof (Hok 1 ltac:(lia)) as H1.
  pose proof (Hok 2 ltac:(lia)) as H2.
  rewrite Nat.add_0_r in H0.
  replace (db_statements w + 1) with (S (db_statements w)) in H1 by lia.
  replace (db_statements w + 2) with (S (S (db_statements w))) in H2 by lia.
  eexists _, _. split; [|split].
  - run_db. rewrite H0. cbn. rewrite Hnew. cbn. rewrite H1. cbn. reflexivity.
  - run_db. rewrite H2. cbn. rewrite lookup_insert_eq. cbn. reflexivity.
  - reflexivity.
Qed.

(** A report of two articles saved into the empty store and read back. *)
Lemma report_save_get_round_trip_witness :
  ∃ w1 w2,
    save_report env_ok "r7" "2024-04-01" ["101"; "102"] [("wechat_long", "a.md")] world0
      = (Ok tt, w1)
    ∧ get_report_by_id env_ok "r7" w1 =
        (Ok (Some {| rd_id := "r7"; rd_date := "2024-04-01"; rd_article_count := 2;
                     rd_file_paths := [("wechat_long", "a.md")];
                     rd_article_ids := ["101"; "102"];
                     rd_created_at := Some "739000" |}), w2)
    ∧ db w2 = db w1.
Proof.
  apply (report_save_get_round_trip env_ok "r7" "2024-04-01" ["101"; "102"]
           [("wechat_long", "a.md")] world0).
  - reflexivity.
  - intros j _. reflexivity.
Defined.

(** ** core/database.py and core/pubmed_client.py: storing an article *)

Lemma to_dict_lookups a :
  to_dict a !! "pmid" = Some (FStr (pmid a)) ∧
  to_dict a !! "title" = Some (FStr (title a)) ∧
  get (to_dict a) "abstract" (FStr EmptyString) = FStr (abstract a) ∧
  get (to_dict a) "authors" (FList []) = FList (authors a) ∧
  get (to_dict a) "journal" (FStr EmptyString) = opt_field (journal a) ∧
  get (to_dict a) "pub_date" (FStr EmptyString) = FStr (pub_date a) ∧
  get (to_dict a) "doi" FNone = opt_field (doi a) ∧
  get (to_dict a) "keywords" (FList []) = FList (keywords a) ∧
  get (to_dict a) "mesh_terms" (FList []) = FList (mesh_terms a).
Proof. repeat split; reflexivity. Qed.

Lemma bind_text_opt_field o : bind_text (opt_field o) = Ok o.
Proof. by destruct o. Qed.

Lemma row_of_to_dict a q t :
  row_of {| obj_pmid := FStr (pmid a); obj_title := FStr (title a);
            obj_abstract := FStr (abstract a); obj_authors := FList (authors a);
            obj_journal := opt_field (journal a); obj_pub_date := FStr (pub_date a);
            obj_doi := opt_field (doi a); obj_keywords := FList (keywords a);
            obj_mesh_terms := FList (mesh_terms a); obj_quality_score := q |} t
  = Ok (row_of_article a q t).
Proof.
  unfold row_of, mbind, result_bind. cbn. rewrite !bind_text_opt_field. reflexivity.
Qed.

(** Saving the dictionary of an article: the statements of the call are the
    query, the insert and the commit. *)
Lemma save_article_to_dict_run env a q w :
  let k := db_statements w in
  db_statement_fails env k = false →
  ∃ b w', save_article env (to_dict a) q w = (Ok b, w')
    ∧ files w' = files w ∧ llm_log w' = llm_log w ∧ http_log w' = http_log w
    ∧ db_txn w' = None ∧ db_pending w' = []
    ∧ (is_Some (tbl_articles (db w) !! pmid a) →
       b = false ∧ db w' = db w ∧ db_statements w' = S k)
    ∧ (tbl_articles (db w) !! pmid a = None →
       db_statement_fails env (S k) = false → db_statement_fails env (S (S k)) = false →
       b = true ∧ db_statements w' = S (S (S k)) ∧
       db w' = set_articles
                 (<[pmid a := row_of_article a q (datetime_utcnow env (clock_reads w))]>
                    (tbl_articles (db w))) (db w)).
Proof.
  intros k Hq. subst k.
  destruct (to_dict_lookups a) as (Hp & Ht & Hab & Hau & Hj & Hd & Hdoi & Hk & Hm).
  unfold save_article. rewrite Hab, Hau, Hj, Hd, Hdoi, Hk, Hm.
  unfold article_exists, finally, catch, commit, query_article, add,
    statement, rollback, get_session, close, modify_world, get_world, lift, raise,
    getitem, of_option, visible, mbind, mret, Py_bind, Py_ret.
  rewrite Hp, Ht. cbn -[row_of flush]. rewrite Hq. cbn -[row_of flush].
  destruct (tbl_articles (db w) !! pmid a) as [old|] eqn:Hold; cbn -[row_of flush].
  { eexists _, _. split; [reflexivity|]. cbn. repeat split; try done;
      try (by intros [? [=]]). }
  cbn [flush]. unfold flush_one, utcnow, statement, lift, raise, modify_world, get_world,
    visible, mbind, mret, Py_bind, Py_ret. cbn -[row_of].
  rewrite row_of_to_dict. cbn.
  destruct (db_statement_fails env (S (db_statements w))) eqn:H1; cbn.
  { eexists _, _. split; [reflexivity|]. cbn. repeat split; try done;
      try (by intros [? [=]]). }
  rewrite Hold. cbn.
  destruct (db_statement_fails env (S (S (db_statements w)))) eqn:H2; cbn.
  { eexists _, _. split; [reflexivity|]. cbn. repeat split; try done;
      try (by intros [? [=]]). }
  eexists _, _. split; [reflexivity|]. cbn. repeat split; try done;
    try (by intros [? [=]]).
Qed.

(** X6. Saving the dictionary of an article whose identifier is not stored, the
    database answering the four statements: [save_article] answers [True],
    [article_exists] then answers [True] for the identifier, the row stored
    carries every field of the article unchanged, the score given and the time
    of the save, and no other row is touched. *)
Theorem save_then_exists env a quality_score w :
  tbl_articles (db w) !! pmid a = None →
  (∀ j, j < 4 → db_statement_fails env (db_statements w + j) = false) →
  ∃ w1 w2,
    save_article env (to_dict a) quality_score w = (Ok true, w1)
    ∧ article_exists env (pmid a) w1 = (Ok true, w2)
    ∧ tbl_articles (db w2) !! pmid a =
        Some (row_of_article a quality_score (datetime_utcnow env (clock_reads w)))
    ∧ (∀ p, p ≠ pmid a → tbl_articles (db w2) !! p = tbl_articles (db w) !! p).
Proof.
  intros Hnew Hok.
  pose proof (Hok 0 ltac:(lia)) as H0. pose proof (Hok 1 ltac:(lia)) as H1.
  pose proof (Hok 2 ltac:(lia)) as H2. pose proof (Hok 3 ltac:(lia)) as H3.
  rewrite Nat.add_0_r in H0.
  replace (db_statements w + 1) with (S (db_statements w)) in H1 by lia.
  replace (db_statements w + 2) with (S (S (db_statements w))) in H2 by lia.
  replace (db_statements w + 3) with (S (S (S (db_statements w)))) in H3 by lia.
  destruct (save_article_to_dict_run env a quality_score w H0)
    as (b & w1 & Hsave & _ & _ & _ & _ & _ & _ & Hins).
  destruct (Hins Hnew H1 H2) as (-> & Hn & Hdb).
  destruct (article_exists_run env (pmid a) w1) as (w2 & Hex & (Hdb2 & _) & _).
  rewrite Hn, H3 in Hex.
  exists w1, w2. split; [done|]. rewrite Hdb2, Hdb. cbn.
  split; [|split].
  - rewrite Hex. by rewrite bool_decide_true by (rewrite Hdb; cbn; rewrite lookup_insert_eq; eauto).
  - by rewrite lookup_insert_eq.
  - intros p Hp. by rewrite lookup_insert_ne.
Qed.

(** Article 101 saved into the empty store and found there. *)
Lemma save_then_exists_witness :
  ∃ w1 w2,
    save_article env_ok (to_dict article_101) 0 world0 = (Ok true, w1)
    ∧ article_exists env_ok "101" w1 = (Ok true, w2)
    ∧ tbl_articles (db w2) !! "101" = Some (row_of_article article_101 0 (clock0 0)).
Proof.
  destruct (save_then_exists env_ok article_101 0 world0) as (w1 & w2 & H1 & H2 & H3 & _).
  - reflexivity.
  - intros j _. reflexivity.
  - exists w1, w2. split; [exact H1|]. split; [exact H2|exact H3].
Defined.

(** What [save_article] leaves alone, whatever it is given. *)
Lemma save_article_frame env data q w :
  ∃ b w', save_article env data q w = (Ok b, w')
    ∧ files w' = files w ∧ llm_log w' = llm_log w ∧ http_log w' = http_log w
    ∧ tbl_reports (db w') = tbl_reports (db w)
    ∧ tbl_search_history (db w') = tbl_search_history (db w)
    ∧ (∀ p row, tbl_articles (db w) !! p = Some row → tbl_articles (db w') !! p = Some row).
Proof.
  run_py.
  destruct (data !! "pmid") as [v|] eqn:Hp; cbn -[row_of bind_text]; [|finish].
  destruct (bind_text v) as [key|] eqn:Hkey; cbn -[row_of bind_text]; [|finish].
  destruct (db_statement_fails env (db_statements w)) eqn:Hq; cbn -[row_of bind_text]; [finish|].
  destruct (option_bind _ _ _ key) as [old|] eqn:Hold; cbn -[row_of bind_text]; [finish|].
  destruct (data !! "title") as [t|] eqn:Ht; run_py; [|finish].
  match goal with |- context [row_of ?o ?d] => destruct (row_of o d) as [row|] eqn:Hrow end;
    cbn -[row_of bind_text]; [|finish].
  destruct (db_statement_fails env (S (db_statements w))) eqn:Hi; cbn -[row_of bind_text]; [finish|].
  destruct (tbl_articles (db w) !! row_pmid row) as [dup|] eqn:Hdup; cbn -[row_of bind_text]; [finish|].
  destruct (db_statement_fails env (S (S (db_statements w)))) eqn:Hc; cbn -[row_of bind_text]; [finish|].
  eexists _, _; split; [reflexivity|]; cbn. repeat split; try done.
  intros p r Hpr. rewrite lookup_insert_ne; [done|]. congruence.
Qed.

(** The calls and the keys of [generate_all]. *)
Lemma generate_all_run env article w :
  ∃ content,
    generate_all env article w =
      (Ok content,
       set_llm_log (llm_log w ++ ((λ v, variant_request env v article) <$> variants)) w)
    ∧ dom content = list_to_set (variant_key <$> variants).
Proof.
  eexists. split.
  - unfold generate_all, mbind, Py_bind.
    rewrite (generate_run env xiaohongshu_long).
    rewrite (generate_run env xiaohongshu_short).
    rewrite (generate_run env wechat_long).
    rewrite (generate_run env wechat_short).
    cbn [llm_log set_llm_log]. rewrite !set_llm_log_twice.
    rewrite <- !app_assoc. reflexivity.
  - rewrite !list_to_map_cons, list_to_map_nil, !dom_insert_L, dom_empty_L. cbn. set_solver.
Qed.

(** ** core/cli.py: the loop of a run *)

Lemma process_articles_fresh_run env :
  (∀ k, db_statement_fails env k = false) →
  ∀ articles acc w,
  ∃ items w', process_articles env false articles acc w = (Ok (acc ++ items), w')
    ∧ items.*1 = new_articles_of (dom (tbl_articles (db w))) articles
    ∧ Forall full_item items
    ∧ Forall (stored_item w') items
    ∧ dom (tbl_articles (db w')) =
        dom (tbl_articles (db w)) ∪ list_to_set (pmid <$> articles)
    ∧ rows_kept w w'
    ∧ llm_log w' = llm_log w ++ (items.*1 ≫= content_requests env)
    ∧ tbl_search_history (db w') = tbl_search_history (db w)
    ∧ tbl_reports (db w') = tbl_reports (db w)
    ∧ files w' = files w.
Proof.
  intros Hok. induction articles as [|a rest IH]; intros acc w; cbn [process_articles].
  - exists [], w. rewrite app_nil_r. repeat split; try done; cbn.
    + set_solver.
    + by intros p row.
    + by rewrite app_nil_r.
  - unfold mbind at 1, Py_bind.
    destruct (article_exists_run env (pmid a) w) as (w1 & -> & (Hdb1 & Hf1 & Hl1) & _).
    rewrite Hok. cbn [new_articles_of].
    destruct (decide (pmid a ∈ dom (tbl_articles (db w)))) as [Hin|Hnin].
    + rewrite bool_decide_true by (by apply elem_of_dom).
      destruct (IH acc w1) as (items & w' & -> & Hi & Hfull & Hst & Hdom & Hkept & Hlog & Hh & Hr & Hf).
      exists items, w'. unfold rows_kept in *. rewrite Hdb1, ?Hl1, ?Hf1 in *.
      repeat split; try done.
      rewrite Hdom. cbn. set_solver.
    + rewrite bool_decide_false by (by rewrite <- elem_of_dom).
      unfold mbind at 1, Py_bind, attempt.
      destruct (generate_all_run env a w1) as (content & -> & Hkeys).
      set (w2 := set_llm_log _ w1).
      unfold mbind at 1, Py_bind.
      destruct (save_article_to_dict_run env a 0%Q w2 (Hok _))
        as (b & w3 & -> & Hf3 & Hl3 & _ & _ & _ & _ & Hins).
      destruct Hins as (-> & _ & Hdb3); [|apply Hok|apply Hok|].
      { cbn. rewrite Hdb1. by apply not_elem_of_dom. }
      destruct (IH (acc ++ [(a, Some content)]) w3)
        as (items & w' & -> & Hi & Hfull & Hst & Hdom & Hkept & Hlog & Hh & Hr & Hf).
      exists ((a, Some content) :: items), w'.
      unfold rows_kept in *. rewrite Hdb3 in *. cbn in *. rewrite Hdb1, ?Hl1, ?Hf1 in *.
      rewrite dom_insert_L in *.
      split; [by rewrite <- app_assoc|]. repeat split; try done.
      * by rewrite Hi.
      * constructor; [by exists content|done].
      * constructor; [|done]. eexists. cbn. apply Hkept. apply lookup_insert_eq.
      * rewrite Hdom. set_solver.
      * intros p row Hrow. apply Hkept. rewrite lookup_insert_ne; [done|].
        intros <-. apply Hnin. apply elem_of_dom. eauto.
      * rewrite Hlog, Hl3. cbn. by rewrite <- ?app_assoc.
      * by rewrite Hf, Hf3.
Qed.

Lemma new_articles_of_fresh : ∀ articles stored,
  NoDup (pmid <$> new_articles_of stored articles)
  ∧ ∀ a, a ∈ new_articles_of stored articles → a ∈ articles ∧ pmid a ∉ stored.
Proof.
  induction articles as [|a rest IH]; intros stored; cbn [new_articles_of].
  - split; [constructor|]. by intros a ?%elem_of_nil.
  - destruct (decide (pmid a ∈ stored)) as [Hin|Hnin].
    + destruct (IH stored) as (Hnd & Hsub). split; [done|].
      intros b Hb. destruct (Hsub b Hb). split; [by right|done].
    + destruct (IH ({[pmid a]} ∪ stored)) as (Hnd & Hsub). split.
      * cbn. constructor; [|done].
        intros (b & Hpb & Hb)%list_elem_of_fmap. apply Hsub in Hb as (_ & Hb). set_solver.
      * intros b [->|Hb]%elem_of_cons; [split; [by left|done]|].
        apply Hsub in Hb as (? & ?). split; [by right|set_solver].
Qed.

(** X7. The loop of a real run, when the database answers every statement: the new
    articles are the fetched ones whose identifier was neither stored before nor
    met earlier in the list; no two of them share an identifier; each comes with
    the four texts and is stored with score 0; afterwards the stored identifiers
    are those stored before and those fetched; no row stored before is touched;
    the model is asked the four texts of each new article, in order, and nothing
    else. *)
Theorem process_articles_persists env articles w :
  (∀ k, db_statement_fails env k = false) →
  ∃ items w', process_articles env false articles [] w = (Ok items, w')
    ∧ items.*1 = new_articles_of (dom (tbl_articles (db w))) articles
    ∧ NoDup (pmid <$> items.*1)
    ∧ Forall (λ item, pmid item.1 ∉ dom (tbl_articles (db w))) items
    ∧ Forall full_item items
    ∧ Forall (stored_item w') items
    ∧ dom (tbl_articles (db w')) =
        dom (tbl_articles (db w)) ∪ list_to_set (pmid <$> articles)
    ∧ rows_kept w w'
    ∧ llm_log w' = llm_log w ++ (items.*1 ≫= content_requests env).
Proof.
  intros Hok.
  destruct (process_articles_fresh_run env Hok articles [] w)
    as (items & w' & Hrun & Hi & Hfull & Hst & Hdom & Hkept & Hlog & _).
  destruct (new_articles_of_fresh articles (dom (tbl_articles (db w)))) as (Hnd & Hsub).
  exists items, w'. repeat split; try done.
  - by rewrite Hi.
  - apply Forall_forall. intros item Hitem. apply Hsub. rewrite <- Hi.
    apply list_elem_of_fmap. by exists item.
Qed.

(** A list that holds article 101 twice: one new article, one row. *)
Lemma process_articles_persists_witness :
  ∃ items w',
    process_articles env_ok false [article_101; article_101] [] world0 = (Ok items, w')
    ∧ items.*1 = [article_101]
    ∧ dom (tbl_articles (db w')) = {["101"]}.
Proof.
  destruct (process_articles_persists env_ok [article_101; article_101] world0)
    as (items & w' & Hrun & Hi & _ & _ & _ & _ & Hdom & _).
  - intros k. reflexivity.
  - exists items, w'. split; [exact Hrun|]. split.
    + rewrite Hi. reflexivity.
    + rewrite Hdom. cbn. set_solver.
Defined.

(** X8. A second pass of the loop over the same articles, the database answering
    every statement: it finds nothing new, asks the model nothing and changes
    neither the tables nor the files. *)
Theorem process_articles_second_pass env articles w :
  (∀ k, db_statement_fails env k = false) →
  ∃ items w1 w2,
    process_articles env false articles [] w = (Ok items, w1)
    ∧ process_articles env false articles [] w1 = (Ok [], w2)
    ∧ db w2 = db w1 ∧ files w2 = files w1 ∧ llm_log w2 = llm_log w1.
Proof.
  intros Hok.
  destruct (process_articles_fresh_run env Hok articles [] w)
    as (items & w1 & Hrun & _ & _ & _ & Hdom & _).
  destruct (process_articles_known env false articles [] w1) as (w2 & Hrun2 & Hk).
  - intros a Ha. apply elem_of_dom. rewrite Hdom.
    apply elem_of_union_r, elem_of_list_to_set, list_elem_of_fmap. by exists a.
  - intros j _. apply Hok.
  - by exists items, w1, w2.
Qed.

(** Article 101 processed twice. *)
Lemma process_articles_second_pass_witness :
  ∃ items w1 w2,
    process_articles env_ok false [article_101] [] world0 = (Ok items, w1)
    ∧ process_articles env_ok false [article_101] [] w1 = (Ok [], w2)
    ∧ db w2 = db w1.
Proof.
  destruct (process_articles_second_pass env_ok [article_101] world0)
    as (items & w1 & w2 & H1 & H2 & H3 & _).
  - intros k. reflexivity.
  - exists items, w1, w2. split; [exact H1|]. split; [exact H2|exact H3].
Defined.

(** What the loop of [run_search] leaves alone in any mode and whatever
    fails. *)
Lemma process_articles_frame env dry_run : ∀ articles acc w,
  ∃ r w', process_articles env dry_run articles acc w = (r, w')
    ∧ tbl_search_history (db w') = tbl_search_history (db w)
    ∧ tbl_reports (db w') = tbl_reports (db w)
    ∧ files w' = files w
    ∧ rows_kept w w'.
Proof.
  induction articles as [|a rest IH]; intros acc w; cbn [process_articles].
  - eexists _, _. by unfold rows_kept.
  - unfold mbind at 1, Py_bind.
    destruct (article_exists_run env (pmid a) w) as (w1 & -> & (Hdb1 & Hf1 & Hl1) & _).
    destruct (db_statement_fails env (db_statements w));
      [eexists _, _; unfold rows_kept; by rewrite Hdb1, Hf1|].
    assert (∀ acc', ∃ r w', process_articles env dry_run rest acc' w1 = (r, w')
      ∧ tbl_search_history (db w') = tbl_search_history (db w)
      ∧ tbl_reports (db w') = tbl_reports (db w)
      ∧ files w' = files w ∧ rows_kept w w') as IH1.
    { intros acc'. destruct (IH acc' w1) as (r & w' & -> & Hh & Hr & Hf & Hk).
      eexists _, _. split; [done|]. unfold rows_kept in *. by rewrite Hdb1, Hf1 in *. }
    destruct (bool_decide _); [apply IH1|].
    destruct dry_run; [apply IH1|].
    unfold mbind at 1, Py_bind, attempt.
    destruct (generate_all_run env a w1) as (content & -> & _).
    set (w2 := set_llm_log _ w1).
    unfold mbind at 1, Py_bind, attempt.
    destruct (save_article_frame env (to_dict a) 0%Q w2)
      as (b & w3 & -> & Hf3 & _ & _ & Hr3 & Hh3 & Hk3).
    destruct (IH (acc ++ [(a, Some content)]) w3) as (r & w' & -> & Hh & Hr & Hf & Hk).
    eexists _, _. split; [done|]. unfold rows_kept in *. cbn in *.
    rewrite Hdb1, ?Hf1 in *. rewrite Hh, Hr, Hf, Hh3, Hr3, Hf3. repeat split; try done.
    intros p row Hrow. by apply Hk, Hk3.
Qed.

(** X9. [run_search], in any mode, with any arguments and whatever fails, records no
    search: the history table is as it was. It removes or changes no stored
    article row either. *)
Theorem run_search_no_history env interest days max dry_run w :
  ∃ r w', run_search env interest days max dry_run w = (r, w')
    ∧ tbl_search_history (db w') = tbl_search_history (db w)
    ∧ rows_kept w w'.
Proof.
  unfold run_search. cbv zeta. fold (selected_interests env interest).
  destruct (translate_run env (selected_interests env interest) w) as (q & Hq).
  py_step. rewrite Hq. cbv beta iota.
  set (w1 := set_llm_log _ w).
  py_step.
  destruct (search_and_fetch_keeps env q
    (Some (default (search_days (pubmed (config env))) days))
    (Some (default (max_results (pubmed (config env))) max)) w1)
    as (r & w2 & -> & Hdb & _ & _).
  unfold rows_kept.
  destruct r as [[|a rest]|e]; try (eexists _, _; split; [reflexivity|]; by rewrite Hdb).
  cbv beta iota. py_step.
  destruct (process_articles_frame env dry_run (a :: rest) [] w2)
    as (r & w3 & -> & Hh3 & _ & _ & Hk3).
  unfold rows_kept in Hk3. rewrite Hdb in Hh3, Hk3. cbn in Hh3, Hk3.
  destruct r as [[|item items]|e]; try (eexists _, _; split; [reflexivity|]; done).
  py_step.
  destruct (report_step_frame env (item :: items) w3) as (r & w4 & -> & Ha4 & Hh4 & _).
  eexists _, _. split; [reflexivity|]. by rewrite Ha4, Hh4.
Qed.

(** ** core/scheduler.py: the scheduled job *)

Lemma scheduled_loop_frame env : ∀ articles acc w,
  ∃ r w', scheduled_loop env articles acc w = (r, w')
    ∧ tbl_search_history (db w') = tbl_search_history (db w)
    ∧ rows_kept w w'.
Proof.
  induction articles as [|a rest IH]; intros acc w; cbn [scheduled_loop].
  - eexists _, _. by unfold rows_kept.
  - unfold mbind at 1, Py_bind.
    destruct (article_exists_run env (pmid a) w) as (w1 & -> & (Hdb1 & Hf1 & Hl1) & _).
    destruct (db_statement_fails env (db_statements w));
      [eexists _, _; unfold rows_kept; by rewrite Hdb1|].
    destruct (bool_decide _).
    { destruct (IH acc w1) as (r & w' & -> & Hh & Hk).
      eexists _, _. split; [done|]. unfold rows_kept in *. by rewrite Hdb1 in *. }
    unfold mbind at 1, Py_bind.
    destruct (generate_all_run env a w1) as (content & -> & _).
    set (w2 := set_llm_log _ w1).
    unfold mbind at 1, Py_bind.
    destruct (save_article_frame env (to_dict a) 0%Q w2)
      as (b & w3 & -> & _ & _ & _ & _ & Hh3 & Hk3).
    destruct (IH (acc ++ [(a, Some content)]) w3) as (r & w' & -> & Hh & Hk).
    eexists _, _. split; [done|]. unfold rows_kept in *. cbn in *.
    rewrite Hdb1 in *. rewrite Hh, Hh3. split; [done|].
    intros p row Hrow. by apply Hk, Hk3.
Qed.

(** X10. The scheduled job never raises, whatever fails inside it; it records no
    search in the history and removes or changes no stored article row. *)
Theorem scheduled_run_outcome env w :
  ∃ w', _run_search env w = (Ok tt, w')
    ∧ tbl_search_history (db w') = tbl_search_history (db w)
    ∧ rows_kept w w'.
Proof.
  unfold _run_search.
  unfold mbind at 1; unfold Py_bind at 1; unfold now at 1. cbv beta iota.
  set (w0 := set_clock_reads _ w).
  assert (∃ r w', (queries ← generate_queries env (interests (config env));
     combined_query ← combine_queries queries;
     articles ← search_and_fetch env combined_query
                  (Some (search_days (pubmed (config env))))
                  (Some (max_results (pubmed (config env))));
     new_articles ← scheduled_loop env articles [];
     match new_articles with
     | [] => mret tt
     | _ => create_report_call env new_articles;; mret tt
     end) w0 = (r, w')
    ∧ tbl_search_history (db w') = tbl_search_history (db w)
    ∧ rows_kept w w') as (r & w' & Hrun & Hh & Hk).
  { unfold mbind at 1; unfold Py_bind at 1.
    destruct (generate_queries_run env (interests (config env)) w0) as (qs & ->).
    set (w1 := set_llm_log _ w0).
    unfold mbind at 1; unfold Py_bind at 1.
    destruct (combine_queries_run qs w1) as (q & ->).
    unfold mbind at 1; unfold Py_bind at 1.
    destruct (search_and_fetch_keeps env q
      (Some (search_days (pubmed (config env))))
      (Some (max_results (pubmed (config env)))) w1)
      as (r & w2 & -> & Hdb & _ & _).
    unfold rows_kept.
    destruct r as [articles|e]; [|eexists _, _; split; [reflexivity|]; by rewrite Hdb].
    unfold mbind at 1; unfold Py_bind at 1.
    destruct (scheduled_loop_frame env articles [] w2) as (r & w3 & -> & Hh3 & Hk3).
    unfold rows_kept in Hk3. rewrite Hdb in Hh3, Hk3. cbn in Hh3, Hk3.
    destruct r as [[|item items]|e]; try (eexists _, _; split; [reflexivity|]; done).
    unfold mbind, Py_bind, create_report_call.
    destruct (create_report env (item :: items) _) as [[report|e] [reports fs]];
      eexists _, _; (split; [reflexivity|]); cbn; by rewrite ?Hh3. }
  unfold catch. rewrite Hrun. destruct r as [[]|e]; by eexists.
Qed.

(** X11. The loop of the scheduled job does what the loop of a real command-line run
    does, on every input and in every world: [generate_all] and [save_article]
    never raise, so the [try] the command line puts around them changes nothing. *)
Theorem scheduled_loop_as_cli env : ∀ articles new_articles w,
  scheduled_loop env articles new_articles w =
  process_articles env false articles new_articles w.
Proof.
  induction articles as [|a rest IH]; intros acc w; cbn [scheduled_loop process_articles];
    [done|].
  unfold mbind at 1 4; unfold Py_bind at 1 4.
  destruct (article_exists env (pmid a) w) as [[[]|e] w1]; [apply IH| |done].
  unfold mbind at 1 3; unfold Py_bind at 1 3; unfold attempt.
  destruct (generate_all_run env a w1) as (content & -> & _).
  set (w2 := set_llm_log _ w1).
  unfold mbind at 1 2; unfold Py_bind at 1 2; unfold attempt.
  destruct (save_article_frame env (to_dict a) 0%Q w2) as (b & w3 & -> & _).
  apply IH.
Qed.

(** ** web/app.py: the search route *)








(** X13. The preset index of [do_search], when neither a natural-language text nor a
    query is given: an index at or past the number of interests is answered with
    the 400 before anything is done; a negative index is not rejected: down to
    minus the number of interests it counts from the end of the list, and below
    that the [IndexError] of the list escapes, nothing done. *)
Theorem do_search_preset_index env natural_language interest_index custom_query w :
  stripped env natural_language = None →
  stripped env custom_query = None →
  let n := Z.of_nat (length (interests (config env))) in
  ((n ≤ interest_index)%Z →
     do_search env natural_language interest_index custom_query w =
       (Ok (HTTPException 400 "Invalid interest index"), w))
  ∧ ((interest_index < - n)%Z →
     do_search env natural_language interest_index custom_query w = (Raise IndexError, w))
  ∧ ((- n ≤ interest_index < 0)%Z →
     do_search env natural_language interest_index custom_query w =
     do_search env natural_language (n + interest_index) custom_query w).
Proof.
  intros Hnl Hcq n. unfold do_search. rewrite Hnl, Hcq. fold n. repeat split.
  - intros Hi. by rewrite (proj2 (Z.leb_le _ _)) by done.
  - intros Hi. rewrite (proj2 (Z.leb_gt _ _)) by lia.
    unfold py_index. rewrite (proj2 (Z.leb_gt 0 _)) by lia.
    fold n. by rewrite (proj2 (Z.leb_gt (- n) _)) by lia.
  - intros Hi. rewrite !(proj2 (Z.leb_gt n _)) by lia.
    unfold py_index. rewrite (proj2 (Z.leb_gt 0 interest_index)) by lia.
    fold n. rewrite (proj2 (Z.leb_le (- n) _)) by lia.
    by rewrite (proj2 (Z.leb_le 0 (n + interest_index))) by lia.
Qed.

(** One interest configured: index 1 is refused, index -2 raises, index -1 is index 0. *)
Lemma do_search_preset_index_witness :
  do_search env_ok None 1 None world0 =
    (Ok (HTTPException 400 "Invalid interest index"), world0)
  ∧ do_search env_ok None (-2) None world0 = (Raise IndexError, world0)
  ∧ do_search env_ok None (-1) None world0 = do_search env_ok None 0 None world0.
Proof.
  destruct (do_search_preset_index env_ok None 1 None world0) as (H1 & _);
    [reflexivity|reflexivity|].
  destruct (do_search_preset_index env_ok None (-2) None world0) as (_ & H2 & _);
    [reflexivity|reflexivity|].
  destruct (do_search_preset_index env_ok None (-1) None world0) as (_ & _ & H3);
    [reflexivity|reflexivity|].
  split; [apply H1; cbn; lia|]. split; [apply H2; cbn; lia|]. apply H3. cbn. lia.
Defined.

(** ** core/pubmed_client.py, core/cli.py, core/llm_generator.py: records, preview, queries *)

Lemma texts_truthy l : Forall (λ s, str_truthy s = true) (texts l).
Proof.
  unfold texts. induction l as [|x l IH]; [constructor|]. cbn [omap list_omap].
  destruct (text x) as [s|]; [|done].
  destruct (str_truthy s) eqn:Hs; [by constructor|done].
Qed.

Lemma length_omap_le {A B} (f : A → option B) l : length (omap f l) ≤ length l.
Proof. induction l as [|x l IH]; [done|]. cbn. destruct (f x); cbn; lia. Qed.

Lemma parse_article_well_formed node a :
  parse_article node = Ok (Some a) → well_formed a.
Proof.
  unfold parse_article. destruct (pub_date_of node); [|done].
  destruct (opt_truthy (node_pmid node)) eqn:Hp; [|done].
  destruct (opt_truthy (node_title node)) eqn:Ht; [|done].
  intros [= <-]. unfold well_formed. cbn.
  destruct (node_pmid node), (node_title node); try done.
  repeat split; try done; try apply texts_truthy.
  etrans; [apply length_omap_le|]. rewrite length_take. lia.
Qed.

Lemma parse_batch_well_formed root : Forall well_formed (parse_batch root).
Proof.
  unfold parse_batch. induction (findall_desc root "PubmedArticle") as [|node l IH];
    [constructor|].
  cbn [omap list_omap].
  destruct (parse_article node) as [[a|]|e] eqn:Ha; try done.
  constructor; [by eapply parse_article_well_formed|done].
Qed.

Lemma fetch_batch_frame env pmids i w :
  ∃ r, fetch_batch env pmids i w = (r, w)
       ∨ ∃ url, fetch_batch env pmids i w = (r, set_http_log (http_log w ++ [url]) w).
Proof.
  unfold fetch_batch, mbind, Py_bind, lift, _make_request.
  destruct (py_slice pmids i (i + 100)); [|by eexists; left].
  destruct (py_join "," _); [|by eexists; left]. cbn.
  destruct (http_get env _ _); eexists; right; by eexists.
Qed.

Lemma only_requests_refl w : only_requests w w.
Proof. exists []. rewrite app_nil_r. by destruct w. Qed.

Lemma fetch_loop_records env pmids : ∀ starts acc w,
  Forall well_formed acc →
  ∃ out w', fetch_loop env pmids starts acc w = (Ok out, w')
    ∧ Forall well_formed out ∧ only_requests w w'.
Proof.
  induction starts as [|i rest IH]; intros acc w Hacc; cbn [fetch_loop].
  - eexists _, _. split; [done|]. split; [done|]. apply only_requests_refl.
  - unfold mbind at 1, Py_bind, attempt.
    destruct (fetch_batch_frame env pmids i w) as (r & [->|(url & ->)]).
    + destruct r as [root|e].
      * destruct (IH (acc ++ parse_batch root) w) as (out & w' & -> & Hout & Hw).
        { apply Forall_app. split; [done|apply parse_batch_well_formed]. }
        by eexists _, _.
      * eexists _, _. split; [done|]. split; [done|]. apply only_requests_refl.
    + destruct r as [root|e].
      * destruct (IH (acc ++ parse_batch root) (set_http_log (http_log w ++ [url]) w))
          as (out & w' & -> & Hout & (urls & ->)).
        { apply Forall_app. split; [done|apply parse_batch_well_formed]. }
        eexists _, _. split; [done|]. split; [done|].
        exists (url :: urls). cbn. by rewrite <- app_assoc.
      * eexists _, _. split; [done|]. split; [done|]. by exists [url].
Qed.

(** X14. [fetch_articles] on any Python value never raises; every record it returns
    has a non-empty identifier and title, at most ten authors and no empty
    keyword or MeSH term; apart from the requests it logs it changes nothing. *)
Theorem fetch_articles_records env pmids w :
  ∃ out urls,
    fetch_articles env pmids w = (Ok out, set_http_log (http_log w ++ urls) w)
    ∧ Forall well_formed out.
Proof.
  unfold fetch_articles.
  assert (set_http_log (http_log w ++ []) w = w) as Hw.
  { rewrite app_nil_r. by destruct w. }
  destruct (negb (py_truthy pmids)); [exists [], []; by rewrite Hw|].
  destruct (py_len pmids) as [n|e]; [|exists [], []; by rewrite Hw].
  destruct (fetch_loop_records env pmids (py_range 0 n 100) [] w)
    as (out & w' & -> & Hout & (urls & ->)); [constructor|].
  by exists out, urls.
Qed.

(** X15. [preview_article] never raises and makes exactly one request, the detail
    request for the one identifier; it answers [True] exactly when the answer
    parses as XML and holds at least one article node that gives a record,
    whichever article that is. *)
Theorem preview_article_outcome env pmid w :
  ∃ b, preview_article env pmid w =
         (Ok b, set_http_log (http_log w ++ [efetch_url env pmid]) w)
    ∧ (b = true ↔
       ∃ root, batch_doc env (length (http_log w)) (efetch_url env pmid) = Ok root
               ∧ kept root ≠ []).
Proof.
  unfold preview_article, mbind, Py_bind.
  destruct (batch_doc env (length (http_log w)) (efetch_url env pmid)) as [root|e] eqn:Hdoc.
  - rewrite (fetch_articles_run env [pmid] [root] w); cbn.
    + rewrite app_nil_r.
      pose proof (Forall2_length _ _ _ (parse_batch_kept root)) as Hlen.
      destruct (parse_batch root) as [|a l].
      * exists false. split; [done|]. split; [done|]. intros (root' & [= <-] & Hne).
        destruct (kept root); done.
      * exists true. split; [done|]. split; [|done]. intros _. exists root.
        split; [done|]. intros Hk. by rewrite Hk in Hlen.
    + lia.
    + intros [|j] root' [= <-]. by rewrite Nat.add_0_r.
    + lia.
  - rewrite (fetch_articles_run env [pmid] [] w); cbn.
    + exists false. split; [done|]. split; [done|]. by intros (root' & [=] & _).
    + lia.
    + by intros j root' Hj.
    + intros _. rewrite Nat.add_0_r. change (batch_url env [pmid] 0) with (efetch_url env pmid).
      by rewrite Hdoc.
Qed.

(** X16. [generate_queries] never raises and gives one query per interest, in order:
    the stripped answer of the call made for that interest or, when that call
    fails, the fallback for that interest; a failed call costs the others
    nothing. The calls are made in order, one per interest, and nothing else
    changes. *)
Theorem generate_queries_each env : ∀ topics w,
  ∃ queries,
    generate_queries env topics w =
      (Ok queries, set_llm_log (llm_log w ++ (query_request env <$> topics)) w)
    ∧ length queries = length topics
    ∧ ∀ j interest, topics !! j = Some interest →
        queries !! j =
          Some (or_else (llm_call env (length (llm_log w) + j) (query_request env interest))
                        ("(" +:+ interest +:+ ")[Title/Abstract]")).
Proof.
  induction topics as [|i rest IH]; intros w; cbn [generate_queries].
  - exists []. cbn. rewrite app_nil_r. split; [by destruct w|]. split; [done|].
    by intros j interest.
  - unfold mbind, Py_bind. rewrite generate_query_run.
    destruct (IH (set_llm_log (llm_log w ++ [query_request env i]) w)) as (qs & -> & Hlen & Hq).
    eexists. split; [cbn; by rewrite <- app_assoc|]. split; [cbn; by rewrite Hlen|].
    intros [|j] interest Hj; cbn in Hj |- *.
    + injection Hj as <-. by rewrite Nat.add_0_r.
    + specialize (Hq j interest Hj). cbn in Hq. rewrite length_app in Hq. cbn in Hq.
      replace (length (llm_log w) + S j) with (length (llm_log w) + 1 + j) by lia.
      exact Hq.
Qed.

(** ** core/pubmed_client.py: search and fetch; web/app.py: the delete route *)

Lemma search_run env query days max w :
  let w0 := set_clock_reads (S (clock_reads w)) w in
  match delta ← timedelta days; datetime_sub (datetime_now env (clock_reads w)) delta with
  | Ok start_date =>
      ∃ ids, search env query days max w =
        (Ok ids,
         set_http_log
           (http_log w ++
            [esearch_url env
               ("(" +:+ query +:+ ") AND " +:+ strftime env start_date "%Y/%m/%d" +:+ ":" +:+
                strftime env (datetime_now env (clock_reads w)) "%Y/%m/%d" +:+ "[PDAT]")
               max]) w0)
  | Raise e => e = OverflowError ∧ search env query days max w = (Raise e, w0)
  end.
Proof.
  intros w0. unfold search, mbind, result_bind, Py_bind, now, lift, catch, _make_request.
  cbn -[timedelta datetime_sub].
  destruct (timedelta days) as [delta|e] eqn:Hd.
  2:{ split; [|done]. unfold timedelta in Hd. destruct (_ <=? _)%Z; congruence. }
  destruct (datetime_sub _ delta) as [start_date|e] eqn:Hs.
  2:{ split; [|done]. unfold datetime_sub in Hs. destruct (_ && _); congruence. }
  cbn. destruct (http_get env _ _); [|by eexists].
  destruct (json_loads env _); [|by eexists].
  destruct (py_get _ _ _); [|by eexists].
  destruct (py_get _ _ _); by eexists.
Qed.

(** X17. [search_and_fetch] raises exactly when the search window leaves what
    [timedelta] and [datetime] can hold, an [OverflowError] after reading the
    clock and before any request. Otherwise it returns, whatever the source
    answers: the id search is requested first, with the query and the window in
    its URL, then the batches; every record returned has a non-empty identifier
    and title, at most ten authors and no empty keyword or MeSH term; nothing
    but the clock and the request log changes. *)
Theorem search_and_fetch_total env query days max w :
  let d := default (search_days (pubmed (config env))) days in
  let w0 := set_clock_reads (S (clock_reads w)) w in
  match delta ← timedelta d; datetime_sub (datetime_now env (clock_reads w)) delta with
  | Ok start_date =>
      ∃ out urls,
        search_and_fetch env query days max w =
          (Ok out,
           set_http_log
             (http_log w ++
              esearch_url env
                ("(" +:+ query +:+ ") AND " +:+ strftime env start_date "%Y/%m/%d" +:+ ":" +:+
                 strftime env (datetime_now env (clock_reads w)) "%Y/%m/%d" +:+ "[PDAT]")
                (default (max_results (pubmed (config env))) max) :: urls) w0)
        ∧ Forall well_formed out
  | Raise e =>
      e = OverflowError ∧ search_and_fetch env query days max w = (Raise OverflowError, w0)
  end.
Proof.
  intros d w0. unfold search_and_fetch. cbv zeta. fold d.
  pose proof (search_run env query d (default (max_results (pubmed (config env))) max) w)
    as Hsearch. cbv zeta in Hsearch. fold w0 in Hsearch.
  destruct (_ ← timedelta d; _) as [start_date|e].
  2:{ destruct Hsearch as (-> & Hsearch). split; [done|].
      unfold mbind, Py_bind. by rewrite Hsearch. }
  destruct Hsearch as (ids & Hsearch).
  unfold mbind, Py_bind. rewrite Hsearch.
  match goal with |- context [http_log w ++ [?u]] => set (url := u) end.
  set (w1 := set_http_log (http_log w ++ [url]) w0).
  assert (∀ urls, set_http_log (http_log w1 ++ urls) w1 =
                  set_http_log (http_log w ++ url :: urls) w0) as Hw.
  { intros urls. subst w1. cbn. by rewrite <- app_assoc. }
  unfold fetch_articles.
  destruct (negb (py_truthy ids)).
  { exists [], []. split; [|done]. rewrite <- Hw, app_nil_r. by destruct w. }
  destruct (py_len ids) as [n|e].
  - destruct (fetch_loop_records env ids (py_range 0 n 100) [] w1)
      as (out & w' & -> & Hout & (urls & ->)); [constructor|].
    exists out, urls. by rewrite Hw.
  - exists [], []. split; [|done]. rewrite <- Hw, app_nil_r. by destruct w.
Qed.

(** X18. The route that deletes a history record never lets an error escape: it
    answers success only when a record with that identifier was there and has
    been removed, every other record kept; in every other case, the identifier
    unknown or the database failing, it answers 404 and the tables are as they
    were. *)
Theorem delete_search_history_route_outcome env history_id w :
  let table := tbl_search_history (db w) in
  ∃ a w', delete_search_history_route env history_id w = (Ok a, w')
    ∧ match a with
      | Answered body =>
          body = ("success", "已删除")
          ∧ Exists (λ h, sh_id h = history_id) table
          ∧ db w' = set_search_history (filter (λ h, sh_id h ≠ history_id) table) (db w)
      | HTTPException status_code detail =>
          status_code = 404%Z ∧ detail = "记录不存在" ∧ db w' = db w
      end
    ∧ (Forall (λ h, sh_id h ≠ history_id) table → a = HTTPException 404 "记录不存在")
    ∧ (db_statement_fails env (db_statements w) = true → a = HTTPException 404 "记录不存在").
Proof.
  intros table. subst table. unfold delete_search_history_route. run_db.
  destruct (db_statement_fails env (db_statements w)) eqn:H1; cbn; [db_done|].
  destruct (list_find _ (tbl_search_history (db w))) as [[i h]|] eqn:Hfind; cbn.
  - apply list_find_Some in Hfind as (Hi & Hh & _).
    assert (Exists (λ h, sh_id h = history_id) (tbl_search_history (db w))) as Hex.
    { apply Exists_exists. exists h. split; [|done]. by eapply list_elem_of_lookup_2. }
    assert (¬ Forall (λ h, sh_id h ≠ history_id) (tbl_search_history (db w))) as Hnall.
    { intros Hall. rewrite Forall_forall in Hall. apply (Hall h); [|done].
      by eapply list_elem_of_lookup_2. }
    destruct (db_statement_fails env (S (db_statements w))) eqn:H2; cbn; [db_done|].
    destruct (db_statement_fails env (S (S (db_statements w)))) eqn:H3; cbn; db_done.
  - db_done.
Qed.
